(** * Verification of [src/data/preprocessing.py]

    The module offers two functions over a pandas [DataFrame]:
    [verificar_columna_numerica], which classifies one column as numeric or
    not and lists the offending cells, and [verificar_multiples_columnas],
    which runs it over a list of columns and collects the reports in a dict.

    The development has three layers:
    - [Python]: the builtins the code calls ([str.strip], [float], the
      exceptions they raise);
    - [Pandas]: the part of the data-frame interface the code reads
      ([df.columns], [df[col]], [dtype], [isnull], [items],
      [is_numeric_dtype]);
    - [Preprocessing]: the two functions, written in a small monad that
      threads the interpreter state (the data frame the caller passed and the
      console) and propagates exceptions. *)

From Stdlib Require Import List ZArith String Ascii Bool Arith Lia Sorted.
Import ListNotations.

Local Open Scope string_scope.
Local Open Scope list_scope.

Set Warnings "-register-all".

(* ================================================================== *)
(** ** Python builtins *)
(* ================================================================== *)

Module Python.

(** A Python [float]: only the class of the value matters to the code under
    study (a NaN is a missing value for pandas). A finite value is
    [m * 2^e]. *)
Inductive Flotante : Type :=
| Nan
| Inf (negativo : bool)
| Finito (m e : Z).

Definition es_nan (f : Flotante) : bool :=
  match f with Nan => true | _ => false end.

(** The text of an exception. The code builds one message itself (line
    28); the others are the one [float] gives for a text it cannot read and
    the one numpy gives when an array of several elements is taken for a
    truth value. *)
Inductive Mensaje : Type :=
| ColumnaNoExiste (columna : string) (disponibles : list string)
| NoConvertible (texto : string)
| VerdadAmbigua.

Inductive Excepcion : Type :=
| ValueError (m : Mensaje)
| TypeError
| OverflowError
| KeyError (clave : string)
| AttributeError.

(** Outcome of an evaluation: a value, or an exception on its way up. *)
Inductive Res (A : Type) : Type :=
| Ok (a : A)
| Raise (e : Excepcion).
Arguments Ok {A} a.
Arguments Raise {A} e.

(** The values a cell can hold. A text is a string of ASCII characters.
    [PyLista x y l] is the list cell [[x, y] + l], of two elements or more
    (the null test of a list of one element is that of its element, so
    such a cell is a [PyOtro "list"]).
    [PyOtro c n r] stands for any other object of class [c], given
    by what the code can observe of it: whether pandas takes it for a
    missing value ([pd.NA], [NaT], [Decimal('NaN')]) and what [float] does
    with it (it returns for a [Decimal] or a numpy scalar, raises
    [TypeError] for a [dict], [OverflowError] for
    [Fraction(10**400)]). *)
Inductive Objeto : Type :=
| PyNone
| PyFloat (f : Flotante)
| PyInt (z : Z)
| PyBool (b : bool)
| PyStr (s : string)
| PyComplex (re im : Flotante)
| PyLista (primero segundo : Objeto) (resto : list Objeto)
| PyOtro (clase : string) (nulo : bool) (conversion : Res unit).

(** [type(val).__name__] *)
Definition type_name (o : Objeto) : string :=
  match o with
  | PyNone => "NoneType"
  | PyFloat _ => "float"
  | PyInt _ => "int"
  | PyBool _ => "bool"
  | PyStr _ => "str"
  | PyComplex _ _ => "complex"
  | PyLista _ _ _ => "list"
  | PyOtro c _ _ => c
  end.

(** [isinstance(valor, str)] *)
Definition isinstance_str (o : Objeto) : bool :=
  match o with PyStr _ => true | _ => false end.

(** *** [str.strip()] *)

(** [str.isspace] on one ASCII character: TAB, LF, VT, FF, CR, the four
    separators FS..US and the blank. *)
Definition es_espacio (c : ascii) : bool :=
  let n := nat_of_ascii c in
  (((9 <=? n) && (n <=? 13)) || ((28 <=? n) && (n <=? 32)))%nat.

(** The characters [float] skips around a number: TAB, LF, VT, FF, CR and
    the blank, not the separators FS..US. *)
Definition es_blanco (c : ascii) : bool :=
  let n := nat_of_ascii c in
  (((9 <=? n) && (n <=? 13)) || (n =? 32))%nat.

Fixpoint quita_izquierda (esp : ascii -> bool) (s : string) : string :=
  match s with
  | EmptyString => EmptyString
  | String c r => if esp c then quita_izquierda esp r else s
  end.

Fixpoint quita_derecha (esp : ascii -> bool) (s : string) : string :=
  match s with
  | EmptyString => EmptyString
  | String c r =>
      match quita_derecha esp r with
      | EmptyString => if esp c then EmptyString else String c EmptyString
      | r' => String c r'
      end
  end.

Definition lstrip (s : string) : string := quita_izquierda es_espacio s.

Definition rstrip (s : string) : string := quita_derecha es_espacio s.

Definition strip (s : string) : string := rstrip (lstrip s).

(** What [float] reads of a text: the text without the blanks around
    it. *)
Definition sin_blancos (s : string) : string :=
  quita_derecha es_blanco (quita_izquierda es_blanco s).

(** *** [float(x)] *)

Definition es_digito (c : ascii) : bool :=
  let n := nat_of_ascii c in ((48 <=? n) && (n <=? 57))%nat.

Definition minuscula (c : ascii) : ascii :=
  let n := nat_of_ascii c in
  if ((65 <=? n) && (n <=? 90))%nat then ascii_of_nat (n + 32) else c.

Fixpoint minusculas (s : string) : string :=
  match s with
  | EmptyString => EmptyString
  | String c r => String (minuscula c) (minusculas r)
  end.

(** Rest of a [digitpart] once its first digit is read: digits, with single
    underscores allowed between two digits. *)
Fixpoint resto_digitos (s : string) : string :=
  match s with
  | EmptyString => EmptyString
  | String c r =>
      if es_digito c then resto_digitos r
      else if Ascii.eqb c "_" then
        match r with
        | String d _ => if es_digito d then resto_digitos r else s
        | EmptyString => s
        end
      else s
  end.

(** [digitpart ::= digit (["_"] digit)*]; gives what follows it. *)
Definition digitpart (s : string) : option string :=
  match s with
  | String c r => if es_digito c then Some (resto_digitos r) else None
  | EmptyString => None
  end.

Definition quita_signo (s : string) : string :=
  match s with
  | String c r => if Ascii.eqb c "+" || Ascii.eqb c "-" then r else s
  | EmptyString => s
  end.

(** [exponent ::= ("e" | "E") [sign] digitpart], optional, then the end. *)
Definition exponente_y_fin (s : string) : bool :=
  match s with
  | EmptyString => true
  | String c r =>
      if Ascii.eqb (minuscula c) "e" then
        match digitpart (quita_signo r) with
        | Some EmptyString => true
        | _ => false
        end
      else false
  end.

(** [number ::= [digitpart] "." digitpart | digitpart ["."]], extended as
    the interpreter does to [digitpart "." digitpart]. *)
Definition numero (s : string) : bool :=
  match digitpart s with
  | Some r =>
      match r with
      | String "."%char r' =>
          match digitpart r' with
          | Some r'' => exponente_y_fin r''
          | None => exponente_y_fin r'
          end
      | _ => exponente_y_fin r
      end
  | None =>
      match s with
      | String "."%char r' =>
          match digitpart r' with
          | Some r'' => exponente_y_fin r''
          | None => false
          end
      | _ => false
      end
  end.

(** Does [float] read the text? Blanks around it are dropped, a sign is
    allowed, then [inf], [infinity], [nan] in any case or a decimal
    number. *)
Definition texto_flotante (s : string) : bool :=
  let t := quita_signo (sin_blancos s) in
  let m := minusculas t in
  String.eqb m "inf" || String.eqb m "infinity" || String.eqb m "nan"
  || numero t.

(** An [int] converts unless it rounds to a value beyond the largest
    double: [float(2**1024)] raises [OverflowError]. *)
Definition cabe_en_float (z : Z) : bool :=
  (Z.abs z <? 2 ^ 1024 - 2 ^ 970)%Z.

(** [float(x)]. The caller drops the number, so only success or the
    exception raised is kept. *)
Definition float (o : Objeto) : Res unit :=
  match o with
  | PyNone => Raise TypeError
  | PyFloat _ => Ok tt
  | PyInt z => if cabe_en_float z then Ok tt else Raise OverflowError
  | PyBool _ => Ok tt
  | PyStr s => if texto_flotante s then Ok tt else Raise (ValueError (NoConvertible s))
  | PyComplex _ _ => Raise TypeError
  | PyLista _ _ _ => Raise TypeError
  | PyOtro _ _ r => r
  end.

End Python.

Import Python.

(* ================================================================== *)
(** ** The pandas interface the code reads *)
(* ================================================================== *)

Module Pandas.

(** A row label of the index: an integer ([RangeIndex] and integer
    indexes), a text, [None], or the tuple a [MultiIndex] gives. *)
Inductive Etiqueta : Type :=
| EInt (z : Z)
| EStr (s : string)
| ENone
| ETupla (componentes : list Etiqueta).

(** [format(idx, "<10")], as the f-string of line 127 applies it to the
    label: integers and texts take the width, [None] and tuples raise
    [TypeError] (unsupported format string). *)
Definition formato_ancho (idx : Etiqueta) : Res unit :=
  match idx with
  | EInt _ | EStr _ => Ok tt
  | ENone | ETupla _ => Raise TypeError
  end.

(** The storage type of a column. [DOtro n] is any further type that is
    not numeric (["datetime64[ns]"], ["category"], ["string"] ...). *)
Inductive Dtype : Type :=
| DInt64
| DFloat64
| DBool
| DComplex128
| DObject
| DOtro (nombre : string).

(** [str(serie.dtype)] *)
Definition str_dtype (d : Dtype) : string :=
  match d with
  | DInt64 => "int64"
  | DFloat64 => "float64"
  | DBool => "bool"
  | DComplex128 => "complex128"
  | DObject => "object"
  | DOtro n => n
  end.

(** [pd.api.types.is_numeric_dtype]: the subclasses of [np.number] and
    [np.bool_]. *)
Definition is_numeric_dtype (d : Dtype) : bool :=
  match d with
  | DInt64 | DFloat64 | DBool | DComplex128 => true
  | DObject | DOtro _ => false
  end.

(** A column: its storage type and its cells with their labels, in index
    order, as [serie.items()] yields them. *)
Record Series : Type := mkSeries {
  dtype : Dtype;
  items : list (Etiqueta * Objeto)
}.

(** A table: its named columns in column order. *)
Definition DataFrame : Type := list (string * Series).

(** [df.columns] *)
Definition columns (df : DataFrame) : list string := map fst df.

(** [columna in df.columns] *)
Definition contiene (columna : string) (cols : list string) : bool :=
  existsb (String.eqb columna) cols.

(** [df[columna]] as line 37 receives it. A name the table does not have
    raises [KeyError]. For a name the table has more than once the
    selection is a frame, not a column, and its first use, [serie.dtype] on
    line 37, raises [AttributeError]; nothing is printed in between. *)
Fixpoint getitem (df : DataFrame) (columna : string) : Res Series :=
  match df with
  | [] => Raise (KeyError columna)
  | (nombre, serie) :: resto =>
      if String.eqb nombre columna then
        if contiene columna (columns resto) then Raise AttributeError
        else Ok serie
      else getitem resto columna
  end.

(** Is the cell a missing value? This is the test [serie.isnull()] makes
    cell by cell, and what [pd.isnull] answers on a scalar: [None], NaN, and
    the objects pandas takes for missing. A list is not missing. *)
Definition isnull (valor : Objeto) : bool :=
  match valor with
  | PyNone => true
  | PyFloat f => es_nan f
  | PyComplex re im => es_nan re || es_nan im
  | PyOtro _ nulo _ => nulo
  | _ => false
  end.

(** [if pd.isnull(valor)] of line 64. On a list [pd.isnull] answers with
    an array, one truth value per element, and the [if] on an array of two
    elements or more raises [ValueError]. *)
Definition pd_isnull (valor : Objeto) : Res bool :=
  match valor with
  | PyLista _ _ _ => Raise (ValueError VerdadAmbigua)
  | _ => Ok (isnull valor)
  end.

(** [len(serie)] *)
Definition len (serie : Series) : nat := List.length (items serie).

(** [serie[serie.isnull()]]: the rows whose cell is missing. *)
Definition filas_nulas (serie : Series) : list (Etiqueta * Objeto) :=
  filter (fun fila => isnull (snd fila)) (items serie).

(** [serie.isnull().sum()] *)
Definition isnull_sum (serie : Series) : nat := List.length (filas_nulas serie).

(** [serie[serie.isnull()].index.tolist()] *)
Definition index_nulos (serie : Series) : list Etiqueta :=
  map fst (filas_nulas serie).

(** What a cell of a column of a given storage type can be. *)
Definition admite (d : Dtype) (valor : Objeto) : bool :=
  match d, valor with
  | DInt64, PyInt z => ((- 2 ^ 63 <=? z) && (z <? 2 ^ 63))%Z
  | DFloat64, PyFloat _ => true
  | DBool, PyBool _ => true
  | DComplex128, PyComplex _ _ => true
  | DObject, _ => true
  | DOtro _, _ => true
  | _, _ => false
  end.

Definition serie_bien_formada (serie : Series) : Prop :=
  Forall (fun fila => admite (dtype serie) (snd fila) = true) (items serie).

(** A table pandas can build: distinct column names, cells that fit the
    storage type of their column, one index for all columns. *)
Definition bien_formado (df : DataFrame) : Prop :=
  NoDup (columns df)
  /\ Forall (fun c => serie_bien_formada (snd c)) df
  /\ forall c1 c2, In c1 df -> In c2 df ->
       map fst (items (snd c1)) = map fst (items (snd c2)).

(** The labels of a [RangeIndex] over [n] rows, from [k]. *)
Fixpoint range_index (k : Z) (n : nat) : list Etiqueta :=
  match n with
  | O => []
  | S n' => EInt k :: range_index (k + 1) n'
  end.

End Pandas.

Import Pandas.

(* ================================================================== *)
(** ** [src/data/preprocessing.py] *)
(* ================================================================== *)

Module Preprocessing.

(** The dict [resultado] of [verificar_columna_numerica], one field per
    key. *)
Record Resultado : Type := mkResultado {
  es_numerica : bool;
  tipo_dato : string;
  valores_no_numericos : list Objeto;
  cantidad_no_numericos : nat;
  indices_no_numericos : list Etiqueta;
  total_valores : nat;
  valores_nulos : nat;
  indices_nulos : list Etiqueta
}.

(** [resultado['es_numerica'] = b] and the three other assignments. *)
Definition set_es_numerica (b : bool) (r : Resultado) : Resultado :=
  mkResultado b (tipo_dato r) (valores_no_numericos r)
    (cantidad_no_numericos r) (indices_no_numericos r) (total_valores r)
    (valores_nulos r) (indices_nulos r).

Definition set_valores_no_numericos (l : list Objeto) (r : Resultado) : Resultado :=
  mkResultado (es_numerica r) (tipo_dato r) l
    (cantidad_no_numericos r) (indices_no_numericos r) (total_valores r)
    (valores_nulos r) (indices_nulos r).

Definition set_cantidad_no_numericos (n : nat) (r : Resultado) : Resultado :=
  mkResultado (es_numerica r) (tipo_dato r) (valores_no_numericos r)
    n (indices_no_numericos r) (total_valores r)
    (valores_nulos r) (indices_nulos r).

Definition set_indices_no_numericos (l : list Etiqueta) (r : Resultado) : Resultado :=
  mkResultado (es_numerica r) (tipo_dato r) (valores_no_numericos r)
    (cantidad_no_numericos r) l (total_valores r)
    (valores_nulos r) (indices_nulos r).

(** One [print] call. Each constructor is one of the f-strings of the
    source with the values it interpolates; the separators carry their
    character and width. *)
Inductive Linea : Type :=
| LSeparador (c : ascii) (ancho : nat)
| LEsNumerica (columna : string)
| LTipoDato (t : string)
| LTotalValores (n : nat)
| LValoresNulos (n : nat)
| LSoloNumericos (columna : string)
| LTipoDatoActual (t : string)
| LDetalleNulos
| LIndicesNulos (l : list Etiqueta)
| LNoNumerica (columna : string)
| LNoNumericosEncontrados (n : nat)
| LDetalleNoNumericos
| LCabecera
| LFila (idx : Etiqueta) (val : Objeto) (tipo : string)
| LTitulo
| LColumna (col : string)
| LResumen
| LNumericas (n : nat)
| LItem (col : string)
| LNoNumericas (n : nat)
| LItemProblematico (col : string) (cant : nat).

(** What a call can see and change: the data frame object [df] refers to
    and the console. *)
Record Estado : Type := mkEstado {
  tabla : DataFrame;
  consola : list Linea
}.

(** A computation: from a state to an outcome and the state left behind,
    also when an exception leaves it. *)
Definition M (A : Type) : Type := Estado -> Res A * Estado.

Definition ret {A} (a : A) : M A := fun st => (Ok a, st).

Definition bind {A B} (m : M A) (k : A -> M B) : M B :=
  fun st =>
    match m st with
    | (Ok a, st') => k a st'
    | (Raise e, st') => (Raise e, st')
    end.

Definition raise {A} (e : Excepcion) : M A := fun st => (Raise e, st).

(** A builtin that returns or raises without touching the state. *)
Definition puro {A} (r : Res A) : M A := fun st => (r, st).

(** Reading the argument [df]. *)
Definition leer_df : M DataFrame := fun st => (Ok (tabla st), st).

Definition print (l : Linea) : M unit :=
  fun st => (Ok tt, mkEstado (tabla st) (consola st ++ [l])).

(** [try: cuerpo except <clases>: manejador] *)
Definition intentar {A} (cuerpo : M A) (atrapa : Excepcion -> bool)
    (manejador : M A) : M A :=
  fun st =>
    match cuerpo st with
    | (Raise e, st') => if atrapa e then manejador st' else (Raise e, st')
    | r => r
    end.

Declare Scope monad_scope.
Delimit Scope monad_scope with monad.
Notation "x <- m ;; k" := (bind m (fun x => k))
  (at level 61, m at next level, right associativity) : monad_scope.
Notation "m ;; k" := (bind m (fun _ => k))
  (at level 61, right associativity) : monad_scope.
Local Open Scope monad_scope.

(** [if b: m] *)
Definition cuando (b : bool) (m : M unit) : M unit :=
  if b then m else ret tt.

(** [except (ValueError, TypeError)] *)
Definition valor_o_tipo (e : Excepcion) : bool :=
  match e with
  | ValueError _ | TypeError => true
  | OverflowError | KeyError _ | AttributeError => false
  end.

(** Lines 70-71: [valor] is rebound to the stripped text when it is a
    [str]. *)
Definition limpiar (valor : Objeto) : Objeto :=
  match valor with
  | PyStr s => PyStr (strip s)
  | _ => valor
  end.

(** Lines 62-77, the scan. The two lists the loop appends to are the
    accumulators. The test of line 64 stands outside the [try]: what it
    raises leaves the loop. [strip] cannot raise, so [valor] is already
    rebound when [float] raises and the handler appends the rebound
    [valor]. *)
Fixpoint recorrer (filas : list (Etiqueta * Objeto))
    (valores : list Objeto) (indices : list Etiqueta)
    : M (list Objeto * list Etiqueta) :=
  match filas with
  | [] => ret (valores, indices)
  | (idx, valor) :: resto =>
      nulo <- puro (pd_isnull valor) ;;
      if nulo then recorrer resto valores indices
      else
        let valor := if isinstance_str valor then limpiar valor else valor in
        acc <- intentar
                 (_ <- puro (float valor) ;; ret (valores, indices))
                 valor_o_tipo
                 (ret (valores ++ [valor], indices ++ [idx])) ;;
        recorrer resto (fst acc) (snd acc)
  end.

(** Lines 94-99 and 108-113. *)
Definition detalle_nulos (resultado : Resultado) : M unit :=
  cuando (0 <? valores_nulos resultado)%nat
    (print (LSeparador "=" 70) ;;
     print LDetalleNulos ;;
     print (LSeparador "=" 70) ;;
     print (LIndicesNulos (indices_nulos resultado)) ;;
     print (LSeparador "=" 70)).

(** Lines 123-127: [for idx, val in zip(indices, valores)]. The f-string
    of line 127 is built first, the label under the width [<10], then
    printed. *)
Fixpoint filas_no_numericas (pares : list (Etiqueta * Objeto)) : M unit :=
  match pares with
  | [] => ret tt
  | (idx, val) :: resto =>
      puro (formato_ancho idx) ;;
      print (LFila idx val (type_name val)) ;;
      filas_no_numericas resto
  end.

(** Lines 86-129. *)
Definition informar (columna : string) (resultado : Resultado)
    (valores : list Objeto) (indices : list Etiqueta) : M unit :=
  if es_numerica resultado then
    print (LSoloNumericos columna) ;;
    print (LTipoDatoActual (tipo_dato resultado)) ;;
    print (LTotalValores (total_valores resultado)) ;;
    print (LValoresNulos (valores_nulos resultado)) ;;
    detalle_nulos resultado
  else
    print (LNoNumerica columna) ;;
    print (LTipoDato (tipo_dato resultado)) ;;
    print (LTotalValores (total_valores resultado)) ;;
    print (LValoresNulos (valores_nulos resultado)) ;;
    print (LNoNumericosEncontrados (cantidad_no_numericos resultado)) ;;
    detalle_nulos resultado ;;
    print (LSeparador "=" 70) ;;
    print LDetalleNoNumericos ;;
    print (LSeparador "=" 70) ;;
    print LCabecera ;;
    print (LSeparador "-" 70) ;;
    filas_no_numericas (combine indices valores) ;;
    print (LSeparador "=" 70).

(** Lines 5-131. *)
Definition verificar_columna_numerica (columna : string) (verbose : bool)
    : M Resultado :=
  df <- leer_df ;;
  if negb (contiene columna (columns df)) then
    raise (ValueError (ColumnaNoExiste columna (columns df)))
  else
    serie <- puro (getitem df columna) ;;
    let resultado :=
      {| es_numerica := false;
         tipo_dato := str_dtype (dtype serie);
         valores_no_numericos := [];
         cantidad_no_numericos := 0;
         indices_no_numericos := [];
         total_valores := len serie;
         valores_nulos := isnull_sum serie;
         indices_nulos := index_nulos serie |} in
    if is_numeric_dtype (dtype serie) then
      let resultado := set_es_numerica true resultado in
      cuando verbose
        (print (LEsNumerica columna) ;;
         print (LTipoDato (tipo_dato resultado)) ;;
         print (LTotalValores (total_valores resultado)) ;;
         print (LValoresNulos (valores_nulos resultado))) ;;
      ret resultado
    else
      acc <- recorrer (items serie) [] [] ;;
      let valores_no_numericos := fst acc in
      let indices_no_numericos := snd acc in
      let resultado := set_valores_no_numericos valores_no_numericos resultado in
      let resultado :=
        set_cantidad_no_numericos (List.length valores_no_numericos) resultado in
      let resultado := set_indices_no_numericos indices_no_numericos resultado in
      let resultado :=
        set_es_numerica (List.length valores_no_numericos =? 0)%nat resultado in
      cuando verbose
        (informar columna resultado valores_no_numericos indices_no_numericos) ;;
      ret resultado.

(** The dict [resultados]: keys in insertion order; assigning to a key
    already there replaces its value in place. *)
Definition Dict : Type := list (string * Resultado).

Fixpoint dict_set (d : Dict) (k : string) (v : Resultado) : Dict :=
  match d with
  | [] => [(k, v)]
  | (k', v') :: resto =>
      if String.eqb k' k then (k', v) :: resto
      else (k', v') :: dict_set resto k v
  end.

Fixpoint dict_get (d : Dict) (k : string) : option Resultado :=
  match d with
  | [] => None
  | (k', v) :: resto => if String.eqb k' k then Some v else dict_get resto k
  end.

Definition dict_keys (d : Dict) : list string := map fst d.

(** Lines 199-204. *)
Fixpoint bucle_columnas (columnas : list string) (verbose : bool)
    (resultados : Dict) : M Dict :=
  match columnas with
  | [] => ret resultados
  | col :: resto =>
      cuando verbose (print (LColumna col)) ;;
      resultado <- verificar_columna_numerica col verbose ;;
      bucle_columnas resto verbose (dict_set resultados col resultado)
  end.

Fixpoint imprime_items (cols : list string) : M unit :=
  match cols with
  | [] => ret tt
  | col :: resto => print (LItem col) ;; imprime_items resto
  end.

(** Lines 221-223. Every [col] comes from the keys of [resultados]. *)
Fixpoint imprime_problematicos (resultados : Dict) (cols : list string) : M unit :=
  match cols with
  | [] => ret tt
  | col :: resto =>
      match dict_get resultados col with
      | Some res =>
          print (LItemProblematico col (cantidad_no_numericos res)) ;;
          imprime_problematicos resultados resto
      | None => raise (KeyError col)
      end
  end.

(** Lines 207-223. *)
Definition resumen (resultados : Dict) : M unit :=
  print (LSeparador "=" 60) ;;
  print LResumen ;;
  print (LSeparador "=" 60) ;;
  let numericas :=
    map fst (filter (fun cr => es_numerica (snd cr)) resultados) in
  let no_numericas :=
    map fst (filter (fun cr => negb (es_numerica (snd cr))) resultados) in
  print (LNumericas (List.length numericas)) ;;
  imprime_items numericas ;;
  match no_numericas with
  | [] => ret tt
  | _ =>
      print (LNoNumericas (List.length no_numericas)) ;;
      imprime_problematicos resultados no_numericas
  end.

(** Lines 185-225 (the file defines the function twice with the same body;
    the second definition is the one in force). [columnas = None] is the
    default argument. *)
Definition verificar_multiples_columnas (columnas : option (list string))
    (verbose : bool) : M Dict :=
  df <- leer_df ;;
  let columnas :=
    match columnas with
    | None => columns df
    | Some l => l
    end in
  let resultados : Dict := [] in
  cuando verbose
    (print (LSeparador "=" 60) ;;
     print LTitulo ;;
     print (LSeparador "=" 60)) ;;
  resultados <- bucle_columnas columnas verbose resultados ;;
  cuando verbose (resumen resultados) ;;
  ret resultados.

End Preprocessing.

Import Preprocessing.
Local Open Scope monad_scope.

(* ================================================================== *)
(** ** The value a call returns, read off the table alone *)
(* ================================================================== *)

Module Valor.

(** The exception that leaves the scan at a row, if any: the test of line
    64 raises, or the cell is not missing and [float] raises something the
    [except] clause lets through. *)
Definition escapa (fila : Etiqueta * Objeto) : option Excepcion :=
  match pd_isnull (snd fila) with
  | Raise e => Some e
  | Ok true => None
  | Ok false =>
      match float (limpiar (snd fila)) with
      | Ok _ => None
      | Raise e => if valor_o_tipo e then None else Some e
      end
  end.

(** The rows the scan records: cell not missing, [float] raises a
    [ValueError] or a [TypeError]. *)
Definition no_numerico (fila : Etiqueta * Objeto) : bool :=
  negb (isnull (snd fila)) &&
  match float (limpiar (snd fila)) with
  | Ok _ => false
  | Raise e => valor_o_tipo e
  end.

(** The cell converts: [float] returns on the text or value handed to it. *)
Definition convierte (valor : Objeto) : Prop := float (limpiar valor) = Ok tt.

Fixpoint primera_fuga (filas : list (Etiqueta * Objeto)) : option Excepcion :=
  match filas with
  | [] => None
  | fila :: resto =>
      match escapa fila with
      | Some e => Some e
      | None => primera_fuga resto
      end
  end.

(** What the row of a recorded cell contributes to the two lists. *)
Definition registro (fila : Etiqueta * Objeto) : Etiqueta * Objeto :=
  (fst fila, limpiar (snd fila)).

Definition escaneo (filas : list (Etiqueta * Objeto))
    : Res (list Objeto * list Etiqueta) :=
  match primera_fuga filas with
  | Some e => Raise e
  | None =>
      Ok (map (fun fila => limpiar (snd fila)) (filter no_numerico filas),
          map fst (filter no_numerico filas))
  end.

Definition informe_numerico (serie : Series) : Resultado :=
  {| es_numerica := true;
     tipo_dato := str_dtype (dtype serie);
     valores_no_numericos := [];
     cantidad_no_numericos := 0;
     indices_no_numericos := [];
     total_valores := List.length (items serie);
     valores_nulos := List.length (filter (fun fila => isnull (snd fila)) (items serie));
     indices_nulos := map fst (filter (fun fila => isnull (snd fila)) (items serie)) |}.

Definition informe_escaneado (serie : Series)
    (acc : list Objeto * list Etiqueta) : Resultado :=
  {| es_numerica := (List.length (fst acc) =? 0)%nat;
     tipo_dato := str_dtype (dtype serie);
     valores_no_numericos := fst acc;
     cantidad_no_numericos := List.length (fst acc);
     indices_no_numericos := snd acc;
     total_valores := List.length (items serie);
     valores_nulos := List.length (filter (fun fila => isnull (snd fila)) (items serie));
     indices_nulos := map fst (filter (fun fila => isnull (snd fila)) (items serie)) |}.

(** The outcome of [verificar_columna_numerica] with [verbose=False]. *)
Definition informe (df : DataFrame) (columna : string) : Res Resultado :=
  if contiene columna (columns df) then
    match getitem df columna with
    | Raise e => Raise e
    | Ok serie =>
        if is_numeric_dtype (dtype serie) then Ok (informe_numerico serie)
        else
          match escaneo (items serie) with
          | Raise e => Raise e
          | Ok acc => Ok (informe_escaneado serie acc)
          end
    end
  else Raise (ValueError (ColumnaNoExiste columna (columns df))).

(** What building the rows of lines 123-127 comes to: the first label that
    does not take the width raises. *)
Fixpoint formato_filas (pares : list (Etiqueta * Objeto)) : Res unit :=
  match pares with
  | [] => Ok tt
  | (idx, _) :: resto =>
      match formato_ancho idx with
      | Ok _ => formato_filas resto
      | Raise e => Raise e
      end
  end.

(** The outcome of [verificar_columna_numerica]: with [verbose=True] the
    report is returned once its rows are printed. *)
Definition informe_de (verbose : bool) (df : DataFrame) (columna : string)
    : Res Resultado :=
  match informe df columna with
  | Raise e => Raise e
  | Ok r =>
      if verbose then
        match formato_filas
                (combine (indices_no_numericos r) (valores_no_numericos r)) with
        | Ok _ => Ok r
        | Raise e => Raise e
        end
      else Ok r
  end.

(** The outcome of the loop of [verificar_multiples_columnas]. *)
Fixpoint informes (verbose : bool) (df : DataFrame) (columnas : list string)
    (d : Dict) : Res Dict :=
  match columnas with
  | [] => Ok d
  | col :: resto =>
      match informe_de verbose df col with
      | Raise e => Raise e
      | Ok r => informes verbose df resto (dict_set d col r)
      end
  end.

(** The names the call works on. *)
Definition columnas_pedidas (df : DataFrame) (columnas : option (list string))
    : list string :=
  match columnas with
  | None => columns df
  | Some l => l
  end.

(** Labels that grow strictly, as integer positions do. *)
Definition menor (a b : Etiqueta) : Prop :=
  match a, b with
  | EInt x, EInt y => (x < y)%Z
  | _, _ => False
  end.

(** The requested names without repetition, each at its first place: the
    key order of a dict filled in that order. *)
Fixpoint sin_repetir (cols : list string) : list string :=
  match cols with
  | [] => []
  | c :: resto =>
      c :: filter (fun x => negb (String.eqb c x)) (sin_repetir resto)
  end.

End Valor.

Import Valor.

(* ================================================================== *)
(** ** Tables used in the examples *)
(* ================================================================== *)

Module Ejemplos.

(** A text column [["1", "abc", None, "3.5"]]. *)
Definition serie_b : Series :=
  mkSeries DObject
    [(EInt 0, PyStr "1"); (EInt 1, PyStr "abc"); (EInt 2, PyNone);
     (EInt 3, PyStr "3.5")].

(** A text column with padded cells [[" 42 ", " abc ", None, "7"]]. *)
Definition serie_e : Series :=
  mkSeries DObject
    [(EInt 0, PyStr " 42 "); (EInt 1, PyStr " abc "); (EInt 2, PyNone);
     (EInt 3, PyStr "7")].

(** A [float64] column [[1.5, NaN, 2.0, 0.25]]. *)
Definition serie_c : Series :=
  mkSeries DFloat64
    [(EInt 0, PyFloat (Finito 3 (-1))); (EInt 1, PyFloat Nan);
     (EInt 2, PyFloat (Finito 2 0)); (EInt 3, PyFloat (Finito 1 (-2)))].

(** A [complex128] column [[1+2j, 0j, 3j, 1+0j]]. *)
Definition serie_z : Series :=
  mkSeries DComplex128
    [(EInt 0, PyComplex (Finito 1 0) (Finito 2 0));
     (EInt 1, PyComplex (Finito 0 0) (Finito 0 0));
     (EInt 2, PyComplex (Finito 0 0) (Finito 3 0));
     (EInt 3, PyComplex (Finito 1 0) (Finito 0 0))].

(** An object column holding an integer no double can take:
    [[1, 2**1024, 3, 4]]. *)
Definition serie_g : Series :=
  mkSeries DObject
    [(EInt 0, PyInt 1); (EInt 1, PyInt (2 ^ 1024)); (EInt 2, PyInt 3);
     (EInt 3, PyInt 4)].

Definition df_ejemplo : DataFrame :=
  [("b", serie_b); ("e", serie_e); ("c", serie_c); ("z", serie_z)].

Definition df_grande : DataFrame :=
  [("g", serie_g); ("b", serie_b)].

Definition st_ejemplo : Estado := mkEstado df_ejemplo [].
Definition st_grande : Estado := mkEstado df_grande [].

Definition informe_b : Resultado :=
  {| es_numerica := false;
     tipo_dato := "object";
     valores_no_numericos := [PyStr "abc"];
     cantidad_no_numericos := 1;
     indices_no_numericos := [EInt 1];
     total_valores := 4;
     valores_nulos := 1;
     indices_nulos := [EInt 2] |}.

Definition informe_e : Resultado :=
  {| es_numerica := false;
     tipo_dato := "object";
     valores_no_numericos := [PyStr "abc"];
     cantidad_no_numericos := 1;
     indices_no_numericos := [EInt 1];
     total_valores := 4;
     valores_nulos := 1;
     indices_nulos := [EInt 2] |}.

Definition informe_c : Resultado :=
  {| es_numerica := true;
     tipo_dato := "float64";
     valores_no_numericos := [];
     cantidad_no_numericos := 0;
     indices_no_numericos := [];
     total_valores := 4;
     valores_nulos := 1;
     indices_nulos := [EInt 1] |}.

Definition informe_z : Resultado :=
  {| es_numerica := true;
     tipo_dato := "complex128";
     valores_no_numericos := [];
     cantidad_no_numericos := 0;
     indices_no_numericos := [];
     total_valores := 4;
     valores_nulos := 0;
     indices_nulos := [] |}.

End Ejemplos.

Import Ejemplos.

(* ================================================================== *)
(** ** What a call prints, read off the table alone *)
(* ================================================================== *)

Module Traza.

(** A computation that ends in [r], leaves the table as it was and prints
    exactly [lineas]. *)
Definition ejecuta {A} (m : M A) (r : Res A) (lineas : list Linea) : Prop :=
  forall st, m st = (r, mkEstado (tabla st) (consola st ++ lineas)).

(** A computation that returns nothing and prints exactly [lineas]. *)
Definition imprime (m : M unit) (lineas : list Linea) : Prop :=
  ejecuta m (Ok tt) lineas.

(** Lines 94-99 and 108-113. *)
Definition lineas_detalle_nulos (r : Resultado) : list Linea :=
  if (0 <? valores_nulos r)%nat then
    [LSeparador "=" 70; LDetalleNulos; LSeparador "=" 70;
     LIndicesNulos (indices_nulos r); LSeparador "=" 70]
  else [].

(** Line 127, one row of the table of offending cells. *)
Definition linea_fila (par : Etiqueta * Objeto) : Linea :=
  LFila (fst par) (snd par) (type_name (snd par)).

(** Lines 123-127: the rows printed, up to the first label that does not
    take the width. *)
Fixpoint lineas_filas (pares : list (Etiqueta * Objeto)) : list Linea :=
  match pares with
  | [] => []
  | par :: resto =>
      match formato_ancho (fst par) with
      | Ok _ => linea_fila par :: lineas_filas resto
      | Raise _ => []
      end
  end.

(** Lines 86-129. The closing separator of line 129 is printed when every
    row was. *)
Definition lineas_informar (columna : string) (r : Resultado)
    (valores : list Objeto) (indices : list Etiqueta) : list Linea :=
  if es_numerica r then
    [LSoloNumericos columna; LTipoDatoActual (tipo_dato r);
     LTotalValores (total_valores r); LValoresNulos (valores_nulos r)]
    ++ lineas_detalle_nulos r
  else
    [LNoNumerica columna; LTipoDato (tipo_dato r);
     LTotalValores (total_valores r); LValoresNulos (valores_nulos r);
     LNoNumericosEncontrados (cantidad_no_numericos r)]
    ++ lineas_detalle_nulos r
    ++ [LSeparador "=" 70; LDetalleNoNumericos; LSeparador "=" 70;
        LCabecera; LSeparador "-" 70]
    ++ lineas_filas (combine indices valores)
    ++ match formato_filas (combine indices valores) with
       | Ok _ => [LSeparador "=" 70]
       | Raise _ => []
       end.

(** What [verificar_columna_numerica] prints with [verbose=True] for a
    column [serie] of the table whose report is [r]. *)
Definition lineas_columna (columna : string) (serie : Series) (r : Resultado)
    : list Linea :=
  if is_numeric_dtype (dtype serie) then
    [LEsNumerica columna; LTipoDato (tipo_dato r);
     LTotalValores (total_valores r); LValoresNulos (valores_nulos r)]
  else
    lineas_informar columna r (valores_no_numericos r) (indices_no_numericos r).

(** The same from the table; a call that raises before its report is
    complete has printed nothing. *)
Definition lineas_verificar (df : DataFrame) (columna : string) : list Linea :=
  match getitem df columna, informe df columna with
  | Ok serie, Ok r => lineas_columna columna serie r
  | _, _ => []
  end.

(** Lines 199-204 with [verbose=True]: the loop prints until a call
    raises. *)
Fixpoint lineas_bucle (df : DataFrame) (cols : list string) : list Linea :=
  match cols with
  | [] => []
  | col :: resto =>
      LColumna col ::
      lineas_verificar df col ++
      match informe_de true df col with
      | Ok _ => lineas_bucle df resto
      | Raise _ => []
      end
  end.

Definition numericas (d : Dict) : list (string * Resultado) :=
  filter (fun cr => es_numerica (snd cr)) d.

Definition no_numericas (d : Dict) : list (string * Resultado) :=
  filter (fun cr => negb (es_numerica (snd cr))) d.

Definition linea_problematica (d : Dict) (col : string) : Linea :=
  LItemProblematico col
    match dict_get d col with
    | Some res => cantidad_no_numericos res
    | None => 0
    end.

(** Lines 207-223. *)
Definition lineas_resumen (d : Dict) : list Linea :=
  [LSeparador "=" 60; LResumen; LSeparador "=" 60;
   LNumericas (List.length (numericas d))]
  ++ map LItem (map fst (numericas d))
  ++ match map fst (no_numericas d) with
     | [] => []
     | cols => LNoNumericas (List.length cols) :: map (linea_problematica d) cols
     end.

(** Lines 194-223 with [verbose=True]. *)
Definition lineas_multiples (df : DataFrame) (columnas : option (list string))
    : list Linea :=
  [LSeparador "=" 60; LTitulo; LSeparador "=" 60]
  ++ lineas_bucle df (columnas_pedidas df columnas)
  ++ match informes true df (columnas_pedidas df columnas) [] with
     | Ok d => lineas_resumen d
     | Raise _ => []
     end.

(** Kinds of lines. *)
Definition es_fila (l : Linea) : bool :=
  match l with LFila _ _ _ => true | _ => false end.

Definition es_indices_nulos (l : Linea) : bool :=
  match l with LIndicesNulos _ => true | _ => false end.

Definition es_resumen (l : Linea) : bool :=
  match l with LResumen => true | _ => false end.

Definition es_columna (l : Linea) : bool :=
  match l with LColumna _ => true | _ => false end.

Definition es_problematico (l : Linea) : bool :=
  match l with LItemProblematico _ _ => true | _ => false end.

Definition es_item (l : Linea) : bool :=
  match l with LItem _ => true | _ => false end.

Definition es_cuenta (l : Linea) : bool :=
  match l with LNumericas _ | LNoNumericas _ => true | _ => false end.

(** The line of the summary for a column that is not numeric. *)
Definition linea_de_entrada (cr : string * Resultado) : Linea :=
  LItemProblematico (fst cr) (cantidad_no_numericos (snd cr)).

(** The lines only [verificar_multiples_columnas] prints itself. *)
Definition es_de_lote (l : Linea) : bool :=
  match l with
  | LTitulo | LColumna _ | LResumen | LNumericas _ | LItem _
  | LNoNumericas _ | LItemProblematico _ _ => true
  | _ => false
  end.


(** A text with no character [str.strip] would drop. *)
Fixpoint sin_espacios (s : string) : bool :=
  match s with
  | EmptyString => true
  | String c r => negb (es_espacio c) && sin_espacios r
  end.


(** A label the row of line 127 can show. *)
Definition con_ancho (idx : Etiqueta) : bool :=
  match formato_ancho idx with
  | Ok _ => true
  | Raise _ => false
  end.

(** Two columns one after the other, as [pd.concat] stacks them. *)
Definition concat (s1 s2 : Series) : Series :=
  mkSeries (dtype s1) (items s1 ++ items s2).

(** A column of missing cells only, [[None, NaN, None]]. *)
Definition serie_n : Series :=
  mkSeries DObject
    [(EInt 0, PyNone); (EInt 1, PyFloat Nan); (EInt 2, PyNone)].

Definition df_nulos : DataFrame := [("n", serie_n)].

Definition st_nulos : Estado := mkEstado df_nulos [].

Definition informe_n : Resultado :=
  {| es_numerica := true;
     tipo_dato := "object";
     valores_no_numericos := [];
     cantidad_no_numericos := 0;
     indices_no_numericos := [];
     total_valores := 3;
     valores_nulos := 3;
     indices_nulos := [EInt 0; EInt 1; EInt 2] |}.

(** The table with column ["b"] stacked on itself under the name
    ["bb"]. *)
Definition df_doble : DataFrame :=
  [("b", serie_b); ("e", serie_e); ("bb", concat serie_b serie_e)].

Definition st_doble : Estado := mkEstado df_doble [].

(** An object column with a list cell, [["1", [1, 2], None, "x"]]. *)
Definition serie_l : Series :=
  mkSeries DObject
    [(EInt 0, PyStr "1"); (EInt 1, PyLista (PyInt 1) (PyInt 2) []);
     (EInt 2, PyNone); (EInt 3, PyStr "x")].

Definition df_lista : DataFrame := [("l", serie_l); ("b", serie_b)].

Definition st_lista : Estado := mkEstado df_lista [].

(** A table over a two-level [MultiIndex]: the row labels are the tuples
    [(0, "x")], [(0, "y")], [(1, "x")]; the text column ["t"] is
    [["7", "abc", None]]. *)
Definition indice_doble : list Etiqueta :=
  [ETupla [EInt 0; EStr "x"]; ETupla [EInt 0; EStr "y"];
   ETupla [EInt 1; EStr "x"]].

Definition serie_t : Series :=
  mkSeries DObject (combine indice_doble [PyStr "7"; PyStr "abc"; PyNone]).

Definition df_multi : DataFrame := [("t", serie_t)].

Definition st_multi : Estado := mkEstado df_multi [].

Definition informe_t : Resultado :=
  {| es_numerica := false;
     tipo_dato := "object";
     valores_no_numericos := [PyStr "abc"];
     cantidad_no_numericos := 1;
     indices_no_numericos := [ETupla [EInt 0; EStr "y"]];
     total_valores := 3;
     valores_nulos := 1;
     indices_nulos := [ETupla [EInt 1; EStr "x"]] |}.

(** A table that names a column twice. *)
Definition df_repetida : DataFrame := [("b", serie_b); ("b", serie_e)].

Definition st_repetida : Estado := mkEstado df_repetida [].

End Traza.

Import Traza.

(* ================================================================== *)
(** ** Builtins: first facts *)
(* ================================================================== *)

Example strip_42 : strip " 42 " = "42".
Proof. reflexivity. Qed.

Example float_textos :
  map texto_flotante
      ["1"; "3.5"; " 42 "; "abc"; ""; "1e5"; "-.5"; "1."; "."; "1_000"; "1__0";
       "Infinity"; "-inf"; "NaN"; "1e"; "0x10"; "1 2"]
  = [true; true; true; false; false; true; true; true; false; true; false;
     true; true; true; false; false; false].
Proof. vm_compute. reflexivity. Qed.

(** [str.strip] drops a separator FS that [float] does not skip. *)
Example separador_fs :
  let s := String (ascii_of_nat 28) "1" in
  strip s = "1" /\ texto_flotante s = false /\ texto_flotante (strip s) = true.
Proof. vm_compute. auto. Qed.

(** Scenarios A, B, C and E of the specification, run on [df_ejemplo]. *)
Example escenario_b :
  fst (verificar_columna_numerica "b" true st_ejemplo) = Ok informe_b.
Proof. vm_compute. reflexivity. Qed.

Example escenario_c :
  fst (verificar_columna_numerica "c" true st_ejemplo) = Ok informe_c.
Proof. vm_compute. reflexivity. Qed.

Example escenario_a :
  fst (verificar_columna_numerica "a" false
         (mkEstado [("a", mkSeries DObject
                            [(EInt 0, PyStr "1"); (EInt 1, PyStr "2");
                             (EInt 2, PyStr "3")])] []))
  = Ok {| es_numerica := true; tipo_dato := "object";
          valores_no_numericos := []; cantidad_no_numericos := 0;
          indices_no_numericos := []; total_valores := 3;
          valores_nulos := 0; indices_nulos := [] |}.
Proof. vm_compute. reflexivity. Qed.

(** A name the table has twice: line 37 raises [AttributeError]. *)
Example columna_repetida :
  fst (verificar_columna_numerica "b" true st_repetida) = Raise AttributeError.
Proof. vm_compute. reflexivity. Qed.

(* ================================================================== *)
(** ** The monad: how outcomes and printed lines compose *)
(* ================================================================== *)

Lemma ejecuta_ret {A} (a : A) : ejecuta (ret a) (Ok a) [].
Proof. intros st. unfold ret. rewrite app_nil_r. now destruct st. Qed.

Lemma ejecuta_puro {A} (r : Res A) : ejecuta (puro r) r [].
Proof. intros st. unfold puro. rewrite app_nil_r. now destruct st. Qed.

Lemma ejecuta_raise {A} (e : Excepcion) : ejecuta (@raise A e) (Raise e) [].
Proof. intros st. unfold raise. rewrite app_nil_r. now destruct st. Qed.

Lemma ejecuta_print (l : Linea) : ejecuta (print l) (Ok tt) [l].
Proof. intros st. reflexivity. Qed.

Lemma ejecuta_bind_ok {A B} (m : M A) (k : A -> M B) a r l1 l2 :
  ejecuta m (Ok a) l1 -> ejecuta (k a) r l2 -> ejecuta (bind m k) r (l1 ++ l2).
Proof.
  intros H1 H2 st. unfold bind. rewrite H1, H2. simpl. now rewrite app_assoc.
Qed.

Lemma ejecuta_bind_raise {A B} (m : M A) (k : A -> M B) e l :
  ejecuta m (Raise e) l -> ejecuta (bind m k) (Raise e) l.
Proof. intros H st. unfold bind. now rewrite H. Qed.

Lemma ejecuta_ext {A} (m : M A) r l1 l2 :
  ejecuta m r l1 -> l1 = l2 -> ejecuta m r l2.
Proof. now intros H <-. Qed.

Lemma imprime_ret : imprime (ret tt) [].
Proof. apply ejecuta_ret. Qed.

Lemma imprime_print (l : Linea) : imprime (print l) [l].
Proof. apply ejecuta_print. Qed.

Lemma imprime_seq (m1 m2 : M unit) (l1 l2 : list Linea) :
  imprime m1 l1 -> imprime m2 l2 -> imprime (m1 ;; m2) (l1 ++ l2).
Proof. intros H1 H2. eapply ejecuta_bind_ok; eassumption. Qed.

Lemma imprime_ext (m : M unit) (l1 l2 : list Linea) :
  imprime m l1 -> l1 = l2 -> imprime m l2.
Proof. apply ejecuta_ext. Qed.

Ltac imprime_lineas :=
  repeat first
    [ apply imprime_print
    | apply imprime_ret
    | eapply imprime_seq; [apply imprime_print|]
    | eassumption ].

Lemma bind_leer {B} (k : DataFrame -> M B) st :
  bind leer_df k st = k (tabla st) st.
Proof. reflexivity. Qed.

Lemma bind_puro {A B} (r : Res A) (k : A -> M B) st :
  bind (puro r) k st =
  match r with Ok a => k a st | Raise e => (Raise e, st) end.
Proof. unfold bind, puro. now destruct r. Qed.

Lemma estado_sin_lineas (st : Estado) :
  mkEstado (tabla st) (consola st ++ []) = st.
Proof. rewrite app_nil_r. now destruct st. Qed.

(* ================================================================== *)
(** ** The scan *)
(* ================================================================== *)

Lemma limpiar_isinstance (valor : Objeto) :
  (if isinstance_str valor then limpiar valor else valor) = limpiar valor.
Proof. now destruct valor. Qed.

Lemma limpiar_no_str (valor : Objeto) :
  isinstance_str valor = false -> limpiar valor = valor.
Proof. now destruct valor. Qed.

Lemma isnull_limpiar (valor : Objeto) : isnull (limpiar valor) = isnull valor.
Proof. now destruct valor. Qed.

(** The test of line 64 either raises or answers as [isnull]. *)
Lemma pd_isnull_ok (valor : Objeto) (b : bool) :
  pd_isnull valor = Ok b -> isnull valor = b.
Proof. destruct valor; simpl; congruence. Qed.

(** The loop leaves the state alone; it stops at the first row that raises
    an exception not caught, and otherwise appends the recorded rows in
    order. *)
Lemma recorrer_escaneo filas : forall valores indices st,
  recorrer filas valores indices st =
  (match primera_fuga filas with
   | Some e => Raise e
   | None =>
       Ok (valores ++ map (fun fila => limpiar (snd fila)) (filter no_numerico filas),
           indices ++ map fst (filter no_numerico filas))
   end, st).
Proof.
  induction filas as [|[idx valor] resto IH]; intros valores indices st.
  - simpl. now rewrite !app_nil_r.
  - cbn [recorrer primera_fuga filter map]. rewrite bind_puro.
    unfold escapa, no_numerico. cbn [snd fst].
    destruct (pd_isnull valor) as [[|]|e] eqn:Hnull.
    + rewrite (pd_isnull_ok _ _ Hnull). simpl. apply IH.
    + rewrite (pd_isnull_ok _ _ Hnull). rewrite limpiar_isinstance.
      unfold bind, intentar, puro, ret.
      destruct (float (limpiar valor)) as [[]|e]; simpl.
      * apply IH.
      * destruct (valor_o_tipo e); simpl; [|reflexivity].
        rewrite IH. destruct (primera_fuga resto); [reflexivity|].
        now rewrite <- !app_assoc.
    + reflexivity.
Qed.

Lemma bind_recorrer {B} filas (k : list Objeto * list Etiqueta -> M B) st :
  bind (recorrer filas [] []) k st =
  match escaneo filas with Ok acc => k acc st | Raise e => (Raise e, st) end.
Proof.
  unfold bind. rewrite recorrer_escaneo. unfold escaneo.
  now destruct (primera_fuga filas).
Qed.

(** What [float] raises beyond the two caught classes comes from an integer
    no double can hold, or from an object of another class. *)
Lemma float_escapa (valor : Objeto) (e : Excepcion) :
  float valor = Raise e -> valor_o_tipo e = false ->
  (e = OverflowError /\ exists z, valor = PyInt z /\ cabe_en_float z = false)
  \/ exists c n, valor = PyOtro c n (Raise e).
Proof.
  destruct valor; simpl; try discriminate;
    try (intros [= <-]; discriminate).
  - destruct (cabe_en_float z) eqn:Hz; [discriminate|].
    intros [= <-] _. left. split; [reflexivity|]. now exists z.
  - destruct (texto_flotante s); [discriminate|]. intros [= <-]. discriminate.
  - intros -> _. right. eauto.
Qed.

Lemma primera_fuga_none filas :
  primera_fuga filas = None <->
  Forall (fun fila => escapa fila = None) filas.
Proof.
  induction filas as [|fila resto IH]; simpl.
  - split; [constructor | reflexivity].
  - destruct (escapa fila) eqn:He.
    + split; [discriminate|]. intros H. inversion H; congruence.
    + rewrite IH. split; [now constructor | intros H; now inversion H].
Qed.

Lemma primera_fuga_some filas e :
  primera_fuga filas = Some e ->
  exists fila, In fila filas /\ escapa fila = Some e.
Proof.
  induction filas as [|fila resto IH]; simpl; [discriminate|].
  destruct (escapa fila) as [e'|] eqn:He.
  - intros [= ->]. eauto.
  - intros H. destruct (IH H) as (f & Hin & Hf). eauto.
Qed.


Lemma escapa_none fila :
  escapa fila = None ->
  pd_isnull (snd fila) = Ok (isnull (snd fila))
  /\ (isnull (snd fila) = false ->
      match float (limpiar (snd fila)) with
      | Ok _ => True
      | Raise e => valor_o_tipo e = true
      end).
Proof.
  unfold escapa. destruct (pd_isnull (snd fila)) as [b|e] eqn:Hn; [|discriminate].
  rewrite (pd_isnull_ok _ _ Hn). intros H. split; [reflexivity|].
  intros ->. destruct (float (limpiar (snd fila))) as [[]|e]; [exact I|].
  now destruct (valor_o_tipo e).
Qed.

(** When no exception escapes, a cell that is not missing either converts
    or is recorded. *)
Lemma no_numerico_o_convierte fila :
  escapa fila = None -> isnull (snd fila) = false ->
  no_numerico fila = false <-> convierte (snd fila).
Proof.
  intros He Hn. destruct (escapa_none _ He) as [_ Hf]. specialize (Hf Hn).
  unfold no_numerico, convierte. rewrite Hn. simpl.
  destruct (float (limpiar (snd fila))) as [[]|e].
  - tauto.
  - rewrite Hf. split; discriminate.
Qed.

Lemma no_numerico_no_nulo fila :
  no_numerico fila = true -> isnull (snd fila) = false.
Proof.
  unfold no_numerico. destruct (isnull (snd fila)); [discriminate | reflexivity].
Qed.

(* ================================================================== *)
(** ** [verificar_columna_numerica]: outcome and effect *)
(* ================================================================== *)

Lemma contiene_In (c : string) (cols : list string) :
  contiene c cols = true <-> In c cols.
Proof.
  unfold contiene. rewrite existsb_exists. split.
  - intros (x & Hin & Heq). apply String.eqb_eq in Heq. now subst.
  - intros Hin. exists c. split; [exact Hin | apply String.eqb_refl].
Qed.

Lemma contiene_false (c : string) (cols : list string) :
  contiene c cols = false <-> ~ In c cols.
Proof.
  rewrite <- contiene_In. destruct (contiene c cols); split; congruence.
Qed.

Lemma contiene_cons (c n : string) (cols : list string) :
  contiene c (n :: cols) = String.eqb n c || contiene c cols.
Proof. unfold contiene. simpl. now rewrite String.eqb_sym. Qed.

Lemma getitem_ok (df : DataFrame) (c : string) (serie : Series) :
  getitem df c = Ok serie -> In (c, serie) df /\ contiene c (columns df) = true.
Proof.
  induction df as [|[n s] resto IH]; [discriminate|].
  cbn [getitem]. change (columns ((n, s) :: resto)) with (n :: columns resto).
  rewrite contiene_cons.
  destruct (String.eqb n c) eqn:E.
  - apply String.eqb_eq in E. subst.
    destruct (contiene c (columns resto)); [discriminate|].
    intros [= ->]. split; [now left | reflexivity].
  - intros H. destruct (IH H) as [Hin Hc]. rewrite Hc.
    split; [now right | reflexivity].
Qed.

Lemma getitem_ausente (df : DataFrame) (c : string) :
  contiene c (columns df) = false -> getitem df c = Raise (KeyError c).
Proof.
  induction df as [|[n s] resto IH]; [reflexivity|].
  cbn [getitem]. change (columns ((n, s) :: resto)) with (n :: columns resto).
  rewrite contiene_cons. destruct (String.eqb n c); simpl; [discriminate|].
  exact IH.
Qed.

(** In a table with distinct column names every name it has selects a
    column. *)
Lemma getitem_NoDup (df : DataFrame) (c : string) :
  NoDup (columns df) -> In c (columns df) ->
  exists serie, getitem df c = Ok serie.
Proof.
  induction df as [|[n s] resto IH]; [contradiction|].
  cbn [getitem]. change (columns ((n, s) :: resto)) with (n :: columns resto).
  intros Hnd Hin. inversion Hnd as [|? ? Hn Hresto]; subst.
  destruct (String.eqb n c) eqn:E.
  - apply String.eqb_eq in E. subst.
    apply contiene_false in Hn. rewrite Hn. eauto.
  - apply IH; [exact Hresto|]. destruct Hin as [-> | Hin]; [|exact Hin].
    now rewrite String.eqb_refl in E.
Qed.

Lemma combine_nil_r {A B} (l : list A) : combine l (@nil B) = [].
Proof. now destruct l. Qed.

Lemma imprime_detalle_nulos (r : Resultado) :
  imprime (detalle_nulos r) (lineas_detalle_nulos r).
Proof.
  unfold detalle_nulos, lineas_detalle_nulos, cuando.
  destruct (0 <? valores_nulos r)%nat; [|apply imprime_ret].
  eapply imprime_ext; [imprime_lineas | reflexivity].
Qed.

(** Lines 123-127: the loop prints the rows up to the first label that
    does not take the width, and raises there. *)
Lemma ejecuta_filas (pares : list (Etiqueta * Objeto)) :
  ejecuta (filas_no_numericas pares) (formato_filas pares) (lineas_filas pares).
Proof.
  induction pares as [|[idx val] resto IH]; simpl; [apply ejecuta_ret|].
  destruct (formato_ancho idx) as [[]|e].
  - apply (ejecuta_bind_ok _ _ tt _ [] _ (ejecuta_puro _)).
    apply (ejecuta_bind_ok _ _ tt _ [_] _ (ejecuta_print _)). exact IH.
  - apply ejecuta_bind_raise, ejecuta_puro.
Qed.

Lemma ejecuta_informar columna r valores indices :
  ejecuta (informar columna r valores indices)
          (if es_numerica r then Ok tt
           else formato_filas (combine indices valores))
          (lineas_informar columna r valores indices).
Proof.
  unfold informar, lineas_informar.
  pose proof (imprime_detalle_nulos r) as Hn.
  pose proof (ejecuta_filas (combine indices valores)) as Hf.
  destruct (es_numerica r).
  - eapply imprime_ext; [imprime_lineas | reflexivity].
  - destruct (formato_filas (combine indices valores)) as [[]|e].
    + eapply ejecuta_ext.
      * do 5 (eapply ejecuta_bind_ok; [apply ejecuta_print|]).
        eapply ejecuta_bind_ok; [exact Hn|].
        do 5 (eapply ejecuta_bind_ok; [apply ejecuta_print|]).
        eapply ejecuta_bind_ok; [exact Hf | apply ejecuta_print].
      * reflexivity.
    + eapply ejecuta_ext.
      * do 5 (eapply ejecuta_bind_ok; [apply ejecuta_print|]).
        eapply ejecuta_bind_ok; [exact Hn|].
        do 5 (eapply ejecuta_bind_ok; [apply ejecuta_print|]).
        apply ejecuta_bind_raise. exact Hf.
      * simpl. now rewrite app_nil_r.
Qed.

Lemma formato_sin_filas (valores : list Objeto) (indices : list Etiqueta) :
  (List.length valores =? 0)%nat = true ->
  formato_filas (combine indices valores) = Ok tt.
Proof.
  intros H. apply Nat.eqb_eq, length_zero_iff_nil in H.
  now rewrite H, combine_nil_r.
Qed.

(** A call: its outcome and every line it prints. With [verbose=False] it
    prints nothing. *)
Lemma verificar_columna_traza (columna : string) (verbose : bool) (st : Estado) :
  verificar_columna_numerica columna verbose st =
  (informe_de verbose (tabla st) columna,
   mkEstado (tabla st)
     (consola st ++ if verbose then lineas_verificar (tabla st) columna else [])).
Proof.
  unfold verificar_columna_numerica, lineas_verificar, informe_de, informe.
  rewrite bind_leer.
  destruct (contiene columna (columns (tabla st))) eqn:Hc; simpl.
  - rewrite bind_puro.
    destruct (getitem (tabla st) columna) as [serie|e].
    + unfold lineas_columna.
      destruct (is_numeric_dtype (dtype serie)).
      * destruct verbose; unfold bind, print, ret, cuando; simpl.
        -- now rewrite <- !app_assoc.
        -- now rewrite estado_sin_lineas.
      * rewrite bind_recorrer.
        destruct (escaneo (items serie)) as [acc|e].
        -- destruct verbose; unfold bind, cuando.
           ++ rewrite ejecuta_informar.
              change (valores_no_numericos (informe_escaneado serie acc))
                with (fst acc).
              change (indices_no_numericos (informe_escaneado serie acc))
                with (snd acc).
              unfold informe_escaneado, set_es_numerica. cbn [es_numerica].
              pose proof (formato_sin_filas (fst acc) (snd acc)) as Hsin.
              destruct (List.length (fst acc) =? 0)%nat.
              ** now rewrite Hsin.
              ** destruct (formato_filas (combine (snd acc) (fst acc)))
                   as [[]|e]; reflexivity.
           ++ unfold ret. now rewrite estado_sin_lineas.
        -- destruct verbose; now rewrite estado_sin_lineas.
    + destruct verbose; now rewrite estado_sin_lineas.
  - unfold raise.
    destruct verbose; [destruct (getitem (tabla st) columna)|];
      now rewrite estado_sin_lineas.
Qed.

Lemma verificar_columna_fst columna verbose st :
  fst (verificar_columna_numerica columna verbose st)
  = informe_de verbose (tabla st) columna.
Proof. now rewrite verificar_columna_traza. Qed.

Lemma verificar_columna_tabla columna verbose st :
  tabla (snd (verificar_columna_numerica columna verbose st)) = tabla st.
Proof. now rewrite verificar_columna_traza. Qed.

(** With [verbose=False] not a line is printed. *)
Lemma verificar_columna_callada columna st :
  snd (verificar_columna_numerica columna false st) = st.
Proof. rewrite verificar_columna_traza. simpl. apply estado_sin_lineas. Qed.

Lemma informe_de_silencio df columna :
  informe_de false df columna = informe df columna.
Proof. unfold informe_de. now destruct (informe df columna). Qed.

(** A report is returned, with [verbose] on or off, only if the silent call
    returns it; with [verbose] on, every recorded label took the width. *)
Lemma informe_de_ok verbose df columna r :
  informe_de verbose df columna = Ok r ->
  informe df columna = Ok r
  /\ (verbose = true ->
      formato_filas (combine (indices_no_numericos r) (valores_no_numericos r))
      = Ok tt).
Proof.
  unfold informe_de. destruct (informe df columna) as [r'|e]; [|discriminate].
  destruct verbose.
  - destruct (formato_filas _) as [[]|e] eqn:Hf; [|discriminate].
    intros [= <-]. auto.
  - intros [= <-]. split; [reflexivity | discriminate].
Qed.

Lemma informe_de_devuelve verbose df columna r :
  informe df columna = Ok r ->
  (verbose = true ->
   formato_filas (combine (indices_no_numericos r) (valores_no_numericos r))
   = Ok tt) ->
  informe_de verbose df columna = Ok r.
Proof.
  intros Hr Hf. unfold informe_de. rewrite Hr.
  destruct verbose; [|reflexivity]. now rewrite Hf.
Qed.

Lemma informe_de_raise verbose df columna e :
  informe df columna = Raise e -> informe_de verbose df columna = Raise e.
Proof. intros H. unfold informe_de. now rewrite H. Qed.

Lemma verificar_columna_ok columna verbose st r :
  fst (verificar_columna_numerica columna verbose st) = Ok r ->
  informe (tabla st) columna = Ok r.
Proof.
  rewrite verificar_columna_fst. intros H. now apply informe_de_ok in H.
Qed.

(** The shape of [informe] on a column that is there. *)
Lemma informe_presente df columna serie :
  getitem df columna = Ok serie ->
  informe df columna =
  if is_numeric_dtype (dtype serie) then Ok (informe_numerico serie)
  else match escaneo (items serie) with
       | Raise e => Raise e
       | Ok acc => Ok (informe_escaneado serie acc)
       end.
Proof.
  intros H. unfold informe.
  destruct (getitem_ok _ _ _ H) as [_ ->]. now rewrite H.
Qed.

Lemma informe_ausente df columna :
  contiene columna (columns df) = false ->
  informe df columna = Raise (ValueError (ColumnaNoExiste columna (columns df))).
Proof. intros H. unfold informe. now rewrite H. Qed.

(** A report comes from a column of the table: either the short cut of a
    numeric storage type, or a scan that no exception left. *)
Lemma informe_ok df columna r :
  informe df columna = Ok r ->
  exists serie, getitem df columna = Ok serie /\
    ((is_numeric_dtype (dtype serie) = true /\ r = informe_numerico serie) \/
     (is_numeric_dtype (dtype serie) = false /\
      primera_fuga (items serie) = None /\
      r = informe_escaneado serie
            (map (fun fila => limpiar (snd fila)) (filter no_numerico (items serie)),
             map fst (filter no_numerico (items serie))))).
Proof.
  unfold informe.
  destruct (contiene columna (columns df)); [|discriminate].
  destruct (getitem df columna) as [serie|e]; [|discriminate].
  intros H. exists serie. split; [reflexivity|].
  destruct (is_numeric_dtype (dtype serie)).
  - left. split; [reflexivity | congruence].
  - right. unfold escaneo in H.
    destruct (primera_fuga (items serie)); [discriminate|].
    repeat split. congruence.
Qed.
(* ================================================================== *)
(** ** Lists: filters, pairs and order *)
(* ================================================================== *)

Section Listas.

Context {A B C : Type}.

Lemma filter_nil_Forall (p : A -> bool) (l : list A) :
  filter p l = [] <-> Forall (fun x => p x = false) l.
Proof.
  induction l as [|x l IH]; simpl.
  - split; [constructor | reflexivity].
  - destruct (p x) eqn:E.
    + split; [discriminate|]. intros H. inversion H; congruence.
    + rewrite IH. split; [now constructor | intros H; now inversion H].
Qed.

Lemma filter_falso (l : list A) : filter (fun _ => false) l = [].
Proof. induction l as [|x l IH]; simpl; [reflexivity | exact IH]. Qed.

Lemma combine_map (f : A -> B) (g : A -> C) (l : list A) :
  combine (map f l) (map g l) = map (fun x => (f x, g x)) l.
Proof. induction l as [|x l IH]; simpl; [reflexivity | now rewrite IH]. Qed.

Lemma filter_disjuntos (p q : A -> bool) (l : list A) :
  (forall x, p x = true -> q x = false) ->
  List.length (filter p l) + List.length (filter q l) <= List.length l.
Proof.
  intros H. induction l as [|x l IH]; simpl; [lia|].
  destruct (p x) eqn:Ep.
  - rewrite (H x Ep). simpl. lia.
  - destruct (q x); simpl; lia.
Qed.

Lemma Forall_filter (P : A -> Prop) (p : A -> bool) (l : list A) :
  Forall P l -> Forall P (filter p l).
Proof.
  induction 1 as [|x l Hx Hl IH]; simpl; [constructor|].
  destruct (p x); [now constructor | exact IH].
Qed.

Lemma sorted_filter (R : B -> B -> Prop) (f : A -> B) (p : A -> bool) (l : list A) :
  StronglySorted R (map f l) -> StronglySorted R (map f (filter p l)).
Proof.
  induction l as [|x l IH]; simpl; intros H; [constructor|].
  apply StronglySorted_inv in H. destruct H as [Hs Hall].
  destruct (p x); simpl; [|now apply IH].
  constructor; [now apply IH|].
  rewrite Forall_forall in *. intros y Hy. apply Hall.
  apply in_map_iff in Hy. destruct Hy as (a & <- & Ha).
  apply filter_In in Ha. apply in_map. tauto.
Qed.

End Listas.

Lemma range_index_In (e : Etiqueta) (n : nat) : forall k,
  In e (range_index k n) -> exists y, e = EInt y /\ (k <= y)%Z.
Proof.
  induction n as [|n IH]; simpl; intros k H; [contradiction|].
  destruct H as [<- | H].
  - exists k. split; [reflexivity | lia].
  - destruct (IH _ H) as (y & -> & Hy). exists y. split; [reflexivity | lia].
Qed.

Lemma range_index_sorted (n : nat) : forall k,
  StronglySorted menor (range_index k n).
Proof.
  induction n as [|n IH]; simpl; intros k; constructor; [apply IH|].
  rewrite Forall_forall. intros e He.
  destruct (range_index_In _ _ _ He) as (y & -> & Hy). simpl. lia.
Qed.

(* ================================================================== *)
(** ** The example tables are tables pandas can build *)
(* ================================================================== *)

Ltac nodup_cadenas :=
  repeat (constructor;
          [simpl; intuition discriminate|]); constructor.

Ltac bien_formado_concreto :=
  split; [nodup_cadenas|];
  split;
  [ repeat (constructor; [repeat constructor|]); constructor
  | intros c1 c2 H1 H2; simpl in H1, H2;
    repeat (destruct H1 as [<- | H1]; [|]);
    try contradiction;
    repeat (destruct H2 as [<- | H2]; [|]);
    try contradiction; reflexivity ].

Lemma df_ejemplo_bien_formado : bien_formado df_ejemplo.
Proof. bien_formado_concreto. Qed.

Lemma df_grande_bien_formado : bien_formado df_grande.
Proof. bien_formado_concreto. Qed.

Lemma df_lista_bien_formado : bien_formado df_lista.
Proof. bien_formado_concreto. Qed.

Lemma df_multi_bien_formado : bien_formado df_multi.
Proof. bien_formado_concreto. Qed.

(* ================================================================== *)
(** ** Reports of [verificar_columna_numerica] *)
(* ================================================================== *)

(** An [int64] is far inside the range of a double. *)
Lemma int64_cabe (z : Z) :
  ((- 2 ^ 63 <=? z) && (z <? 2 ^ 63))%Z = true -> cabe_en_float z = true.
Proof.
  intros H. apply andb_prop in H. destruct H as [Hlo Hhi].
  apply Z.leb_le in Hlo. apply Z.ltb_lt in Hhi.
  assert (Hb : (2 ^ 63 < 2 ^ 1024 - 2 ^ 970)%Z) by reflexivity.
  unfold cabe_en_float. apply Z.ltb_lt.
  remember (2 ^ 63)%Z as b. remember (2 ^ 1024 - 2 ^ 970)%Z as tope.
  clear Heqb Heqtope. lia.
Qed.

(** Every cell a real numeric storage type can hold converts. *)
Lemma admite_convierte (d : Dtype) (valor : Objeto) :
  admite d valor = true -> is_numeric_dtype d = true -> d <> DComplex128 ->
  convierte valor.
Proof.
  unfold convierte.
  destruct d, valor; try discriminate; try reflexivity; try congruence.
  intros H _ _. cbn [admite] in H. apply int64_cabe in H.
  cbn [limpiar float]. now rewrite H.
Qed.

(** In a scan that no exception leaves, nothing is recorded exactly when
    every cell that is not missing converts. *)
Lemma nada_registrado_iff filas :
  primera_fuga filas = None ->
  (filter no_numerico filas = [] <->
   Forall (fun fila => isnull (snd fila) = false -> convierte (snd fila)) filas).
Proof.
  intros Hf. apply primera_fuga_none in Hf.
  rewrite filter_nil_Forall, !Forall_forall in *.
  split; intros H fila Hin.
  - intros Hn. now apply no_numerico_o_convierte; auto.
  - destruct (isnull (snd fila)) eqn:Hn.
    + unfold no_numerico. now rewrite Hn.
    + apply no_numerico_o_convierte; auto.
Qed.

Lemma length_cero {A} (l : list A) : (List.length l =? 0)%nat = true <-> l = [].
Proof. destruct l; simpl; split; congruence. Qed.

(** C1 (amended). For a column of the table and the report returned for it:
    [es_numerica] holds exactly when the storage type is numeric or every
    cell that is not missing converts with [float], texts being stripped
    first. For the real numeric storage types (integer, floating, boolean)
    every such cell does convert, so there [es_numerica] holds exactly when
    every cell that is not missing converts; only a complex column is
    flagged without its cells converting. The padded text [" 42 "]
    converts. *)
Theorem C1_es_numerica_iff :
  forall st columna verbose serie r,
    getitem (tabla st) columna = Ok serie ->
    fst (verificar_columna_numerica columna verbose st) = Ok r ->
    (es_numerica r = true <->
       is_numeric_dtype (dtype serie) = true \/
       Forall (fun fila => isnull (snd fila) = false -> convierte (snd fila))
              (items serie))
    /\ (serie_bien_formada serie -> dtype serie <> DComplex128 ->
        (es_numerica r = true <->
         Forall (fun fila => isnull (snd fila) = false -> convierte (snd fila))
                (items serie)))
    /\ convierte (PyStr " 42 ").
Proof.
  intros st columna verbose serie r Hget Hr.
  apply verificar_columna_ok in Hr.
  destruct (informe_ok _ _ _ Hr) as (serie' & Hget' & Hcasos).
  assert (serie' = serie) by congruence. subst serie'.
  assert (Hiff : es_numerica r = true <->
       is_numeric_dtype (dtype serie) = true \/
       Forall (fun fila => isnull (snd fila) = false -> convierte (snd fila))
              (items serie)).
  { destruct Hcasos as [[Hnum ->] | (Hnum & Hfuga & ->)].
    - simpl. tauto.
    - simpl. rewrite length_cero, <- nada_registrado_iff by exact Hfuga.
      rewrite Hnum. split.
      + intros H. right. now apply map_eq_nil in H.
      + intros [H|H]; [discriminate | now rewrite H]. }
  split; [exact Hiff|]. split; [|reflexivity].
  intros Hwf Hcomplejo. rewrite Hiff. split; [|tauto].
  intros [Hnum | H]; [|exact H].
  unfold serie_bien_formada in Hwf. rewrite Forall_forall in *.
  intros fila Hin _. eapply admite_convierte; eauto.
Qed.

(** C1, instance: the padded column ["e"] of the example table without its
    bad cell is reported numeric. *)
Lemma C1_es_numerica_iff_witness :
  es_numerica
    {| es_numerica := true; tipo_dato := "object";
       valores_no_numericos := []; cantidad_no_numericos := 0;
       indices_no_numericos := []; total_valores := 2;
       valores_nulos := 1; indices_nulos := [EInt 1] |} = true <->
  is_numeric_dtype DObject = true \/
  Forall (fun fila => isnull (snd fila) = false -> convierte (snd fila))
         [(EInt 0, PyStr " 42 "); (EInt 1, PyNone)].
Proof.
  exact (proj1 (C1_es_numerica_iff
           (mkEstado [("p", mkSeries DObject
                              [(EInt 0, PyStr " 42 "); (EInt 1, PyNone)])] [])
           "p" true
           (mkSeries DObject [(EInt 0, PyStr " 42 "); (EInt 1, PyNone)])
           _ eq_refl eq_refl)).
Defined.

(** C1 as first stated fails on a complex column: the report says numeric
    although no cell converts. *)
Lemma C1_counterexample :
  bien_formado df_ejemplo /\
  getitem (tabla st_ejemplo) "z" = Ok serie_z /\
  fst (verificar_columna_numerica "z" true st_ejemplo) = Ok informe_z /\
  ~ (es_numerica informe_z = true <->
     Forall (fun fila => isnull (snd fila) = false -> convierte (snd fila))
            (items serie_z)).
Proof.
  split; [exact df_ejemplo_bien_formado|].
  split; [reflexivity|]. split; [vm_compute; reflexivity|].
  intros [H _]. specialize (H eq_refl).
  inversion H as [|fila resto Hfila _]; subst.
  specialize (Hfila eq_refl). discriminate Hfila.
Qed.

(** C2, at the inputs where it fails. Column ["l"] is in the table and
    holds the list [[1, 2]]: the test of line 64, which stands outside the
    [try], raises the [ValueError] numpy gives for the truth value of an
    array, so this value that is not a number is raised, not reported.
    Column ["g"] is in the table and holds [2**1024]: [float] raises an
    [OverflowError] that line 75 does not catch. *)
Theorem C2_valor_lanzado :
  bien_formado df_lista
  /\ In "l" (columns df_lista)
  /\ In (EInt 1, PyLista (PyInt 1) (PyInt 2) []) (items serie_l)
  /\ fst (verificar_columna_numerica "l" false st_lista)
     = Raise (ValueError VerdadAmbigua)
  /\ fst (verificar_columna_numerica "l" true st_lista)
     = Raise (ValueError VerdadAmbigua)
  /\ bien_formado df_grande
  /\ In "g" (columns df_grande)
  /\ fst (verificar_columna_numerica "g" false st_grande) = Raise OverflowError.
Proof.
  split; [exact df_lista_bien_formado|].
  split; [now left|].
  split; [right; left; reflexivity|].
  split; [vm_compute; reflexivity|].
  split; [vm_compute; reflexivity|].
  split; [exact df_grande_bien_formado|].
  split; [now left | vm_compute; reflexivity].
Qed.

(** C3. In every report returned, the count is the length of the list of
    recorded values, [es_numerica] says that count is zero, no recorded
    value is a missing one, each recorded pair comes from a cell of the
    column that is not missing, and recorded and missing cells together
    never outnumber the cells. *)
Theorem C3_invariantes :
  forall st columna verbose r,
    fst (verificar_columna_numerica columna verbose st) = Ok r ->
    cantidad_no_numericos r = List.length (valores_no_numericos r)
    /\ es_numerica r = (cantidad_no_numericos r =? 0)%nat
    /\ Forall (fun val => isnull val = false) (valores_no_numericos r)
    /\ exists serie,
         getitem (tabla st) columna = Ok serie
         /\ (forall idx val,
               In (idx, val)
                  (combine (indices_no_numericos r) (valores_no_numericos r)) ->
               exists valor, In (idx, valor) (items serie)
                             /\ isnull valor = false
                             /\ val = limpiar valor)
         /\ cantidad_no_numericos r + valores_nulos r <= total_valores r.
Proof.
  intros st columna verbose r Hr. apply verificar_columna_ok in Hr.
  destruct (informe_ok _ _ _ Hr) as (serie & Hget & Hcasos).
  destruct Hcasos as [[Hnum ->] | (Hnum & Hfuga & ->)]; simpl.
  - repeat split; [constructor|].
    exists serie. repeat split; [exact Hget | contradiction | apply filter_length_le].
  - repeat split.
    + rewrite Forall_forall. intros val Hin.
      apply in_map_iff in Hin. destruct Hin as (fila & <- & Hin).
      apply filter_In in Hin. rewrite isnull_limpiar.
      now apply no_numerico_no_nulo.
    + exists serie. split; [exact Hget|]. split.
      * intros idx val Hin. rewrite combine_map in Hin.
        apply in_map_iff in Hin. destruct Hin as ([i v] & [= <- <-] & Hin).
        apply filter_In in Hin. destruct Hin as [Hin Hp].
        exists v. repeat split; [exact Hin|].
        now apply no_numerico_no_nulo in Hp.
      * rewrite length_map.
        apply filter_disjuntos. intros fila Hp.
        apply no_numerico_no_nulo in Hp. exact Hp.
Qed.

(** C3, instance: column ["b"] of the example table. *)
Lemma C3_invariantes_witness :
  cantidad_no_numericos informe_b = List.length (valores_no_numericos informe_b)
  /\ es_numerica informe_b = (cantidad_no_numericos informe_b =? 0)%nat
  /\ Forall (fun val => isnull val = false) (valores_no_numericos informe_b).
Proof.
  destruct (C3_invariantes st_ejemplo "b" true informe_b eq_refl)
    as (H1 & H2 & H3 & _).
  exact (conj H1 (conj H2 H3)).
Defined.

(** C4 (amended). In the scan of a column whose storage type is not
    numeric, every cell that is not missing and that [float] rejects is
    recorded with its label, and the value recorded is the one handed to
    [float]: the stripped text for a text cell, the cell itself
    otherwise. *)
Theorem C4_valor_registrado :
  forall st columna verbose serie r,
    getitem (tabla st) columna = Ok serie ->
    is_numeric_dtype (dtype serie) = false ->
    fst (verificar_columna_numerica columna verbose st) = Ok r ->
    forall idx valor,
      In (idx, valor) (items serie) ->
      isnull valor = false ->
      ~ convierte valor ->
      In (idx, limpiar valor)
         (combine (indices_no_numericos r) (valores_no_numericos r))
      /\ (forall s, valor = PyStr s ->
            In (idx, PyStr (strip s))
               (combine (indices_no_numericos r) (valores_no_numericos r)))
      /\ (isinstance_str valor = false ->
            In (idx, valor)
               (combine (indices_no_numericos r) (valores_no_numericos r))).
Proof.
  intros st columna verbose serie r Hget Hnum Hr idx valor Hin Hnn Hconv.
  apply verificar_columna_ok in Hr.
  destruct (informe_ok _ _ _ Hr) as (serie' & Hget' & Hcasos).
  assert (serie' = serie) by congruence. subst serie'.
  destruct Hcasos as [[Hnum' _] | (_ & Hfuga & ->)]; [congruence|].
  simpl. rewrite combine_map.
  assert (Hreg : In (idx, limpiar valor)
                    (map (fun x => (fst x, limpiar (snd x)))
                         (filter no_numerico (items serie)))).
  { apply in_map_iff. exists (idx, valor). split; [reflexivity|].
    apply filter_In. split; [exact Hin|].
    apply primera_fuga_none in Hfuga. rewrite Forall_forall in Hfuga.
    specialize (Hfuga _ Hin).
    destruct (no_numerico (idx, valor)) eqn:Hp; [reflexivity|].
    exfalso. apply Hconv.
    now apply (no_numerico_o_convierte (idx, valor)). }
  split; [exact Hreg|]. split.
  - intros s ->. exact Hreg.
  - intros Hs. now rewrite (limpiar_no_str _ Hs) in Hreg.
Qed.

(** C4, instance: the padded cell [" abc "] of column ["e"]. *)
Lemma C4_valor_registrado_witness :
  In (EInt 1, PyStr "abc")
     (combine (indices_no_numericos informe_e) (valores_no_numericos informe_e)).
Proof.
  refine (proj1 (C4_valor_registrado st_ejemplo "e" true serie_e informe_e
                   eq_refl eq_refl eq_refl (EInt 1) (PyStr " abc ") _ eq_refl _)).
  - right. left. reflexivity.
  - unfold convierte. simpl. discriminate.
Defined.

(** C4 as first stated fails on a padded text: the list holds the stripped
    text, not the cell as it stands in the column. *)
Lemma C4_counterexample :
  bien_formado df_ejemplo /\
  getitem (tabla st_ejemplo) "e" = Ok serie_e /\
  fst (verificar_columna_numerica "e" false st_ejemplo) = Ok informe_e /\
  In (EInt 1, PyStr " abc ") (items serie_e) /\
  isnull (PyStr " abc ") = false /\
  float (PyStr " abc ") <> Ok tt /\
  float (limpiar (PyStr " abc ")) <> Ok tt /\
  ~ In (EInt 1, PyStr " abc ")
       (combine (indices_no_numericos informe_e) (valores_no_numericos informe_e)) /\
  ~ In (PyStr " abc ") (valores_no_numericos informe_e).
Proof.
  split; [exact df_ejemplo_bien_formado|].
  split; [reflexivity|]. split; [vm_compute; reflexivity|].
  split; [right; left; reflexivity|]. split; [reflexivity|].
  split; [vm_compute; discriminate|]. split; [vm_compute; discriminate|].
  split; simpl; intros [H|[]]; discriminate H.
Qed.

(** C5. For a column whose storage type is numeric the call returns at once:
    the report says numeric, records nothing, and carries the number of
    cells, the number of missing cells and their labels; it is fixed by the
    storage type and the missing cells alone, whatever [float] would say of
    the others, and the only lines printed are the four of the short cut. A
    NaN of a floating column is among the missing cells. *)
Theorem C5_atajo_numerico :
  forall st columna verbose serie,
    getitem (tabla st) columna = Ok serie ->
    is_numeric_dtype (dtype serie) = true ->
    exists r,
      verificar_columna_numerica columna verbose st =
        (Ok r,
         mkEstado (tabla st)
           (consola st ++
            if verbose then
              [LEsNumerica columna; LTipoDato (str_dtype (dtype serie));
               LTotalValores (List.length (items serie));
               LValoresNulos
                 (List.length (filter (fun fila => isnull (snd fila)) (items serie)))]
            else []))
      /\ es_numerica r = true
      /\ valores_no_numericos r = []
      /\ cantidad_no_numericos r = 0
      /\ indices_no_numericos r = []
      /\ tipo_dato r = str_dtype (dtype serie)
      /\ total_valores r = List.length (items serie)
      /\ valores_nulos r
         = List.length (filter (fun fila => isnull (snd fila)) (items serie))
      /\ indices_nulos r
         = map fst (filter (fun fila => isnull (snd fila)) (items serie))
      /\ (forall idx, In (idx, PyFloat Nan) (items serie) ->
            In idx (indices_nulos r) /\ 0 < valores_nulos r).
Proof.
  intros st columna verbose serie Hget Hnum.
  exists (informe_numerico serie). split.
  - unfold verificar_columna_numerica. rewrite bind_leer.
    destruct (getitem_ok _ _ _ Hget) as [_ Hc]. rewrite Hc. simpl.
    rewrite bind_puro, Hget, Hnum.
    destruct verbose; simpl.
    + unfold bind, print, ret; simpl. rewrite <- !app_assoc. reflexivity.
    + unfold bind, ret; simpl. rewrite app_nil_r. now destruct st.
  - repeat split; simpl.
    + apply in_map_iff. exists (idx, PyFloat Nan). split; [reflexivity|].
      apply filter_In. split; [assumption | reflexivity].
    + assert (Hin : In (idx, PyFloat Nan)
                       (filter (fun fila => isnull (snd fila)) (items serie))).
      { apply filter_In. split; [assumption | reflexivity]. }
      destruct (filter (fun fila => isnull (snd fila)) (items serie));
        [contradiction | simpl; lia].
Qed.

(** C5, instance: the floating column ["c"] with its NaN. *)
Lemma C5_atajo_numerico_witness :
  exists r,
    verificar_columna_numerica "c" false st_ejemplo = (Ok r, st_ejemplo)
    /\ es_numerica r = true
    /\ valores_nulos r = 1
    /\ indices_nulos r = [EInt 1].
Proof.
  destruct (C5_atajo_numerico st_ejemplo "c" false serie_c eq_refl eq_refl)
    as (r & Hrun & Hes & _ & _ & _ & _ & _ & Hn & Hi & _).
  exists r. repeat split; assumption.
Defined.

(** C10. In every report returned the recorded values and the recorded
    labels are one selection of the rows of the column, taken in scan
    order: equal lengths, paired place by place, so that zipping them gives
    the recorded (label, value) pairs; the labels of the missing cells are
    as many as the count of missing cells. Over a [RangeIndex] both lists
    of labels grow strictly. *)
Theorem C10_listas_paralelas :
  forall st columna verbose r,
    fst (verificar_columna_numerica columna verbose st) = Ok r ->
    List.length (valores_no_numericos r) = List.length (indices_no_numericos r)
    /\ List.length (indices_nulos r) = valores_nulos r
    /\ exists serie (p : Etiqueta * Objeto -> bool),
         getitem (tabla st) columna = Ok serie
         /\ indices_no_numericos r = map fst (filter p (items serie))
         /\ valores_no_numericos r
            = map (fun fila => limpiar (snd fila)) (filter p (items serie))
         /\ combine (indices_no_numericos r) (valores_no_numericos r)
            = map registro (filter p (items serie))
         /\ indices_nulos r
            = map fst (filter (fun fila => isnull (snd fila)) (items serie))
         /\ (forall n, map fst (items serie) = range_index 0 n ->
               StronglySorted menor (indices_no_numericos r)
               /\ StronglySorted menor (indices_nulos r)).
Proof.
  intros st columna verbose r Hr. apply verificar_columna_ok in Hr.
  destruct (informe_ok _ _ _ Hr) as (serie & Hget & Hcasos).
  assert (Hnulos : forall n, map fst (items serie) = range_index 0 n ->
            StronglySorted menor
              (map fst (filter (fun fila => isnull (snd fila)) (items serie)))).
  { intros n Hn. apply sorted_filter. rewrite Hn. apply range_index_sorted. }
  destruct Hcasos as [[Hnum ->] | (Hnum & Hfuga & ->)]; simpl.
  - split; [reflexivity|]. split; [apply length_map|].
    exists serie, (fun _ => false). split; [exact Hget|].
    rewrite filter_falso. simpl. repeat split; eauto. constructor.
  - split; [now rewrite !length_map|]. split; [apply length_map|].
    exists serie, no_numerico. split; [exact Hget|].
    repeat split; eauto.
    + apply combine_map.
    + apply sorted_filter. rewrite H. apply range_index_sorted.
Qed.

(** C10, instance: column ["b"] of the example table. *)
Lemma C10_listas_paralelas_witness :
  List.length (valores_no_numericos informe_b)
  = List.length (indices_no_numericos informe_b)
  /\ List.length (indices_nulos informe_b) = valores_nulos informe_b.
Proof.
  destruct (C10_listas_paralelas st_ejemplo "b" true informe_b eq_refl)
    as (H1 & H2 & _).
  exact (conj H1 H2).
Defined.

(* ================================================================== *)
(** ** The dict of reports *)
(* ================================================================== *)

Lemma dict_get_set_eq (d : Dict) (k : string) (v : Resultado) :
  dict_get (dict_set d k v) k = Some v.
Proof.
  induction d as [|[k' v'] resto IH]; simpl.
  - now rewrite String.eqb_refl.
  - destruct (String.eqb k' k) eqn:E; simpl; now rewrite E.
Qed.

Lemma dict_get_set_neq (d : Dict) (k k0 : string) (v : Resultado) :
  k0 <> k -> dict_get (dict_set d k v) k0 = dict_get d k0.
Proof.
  intros Hneq. induction d as [|[k' v'] resto IH]; simpl.
  - destruct (String.eqb k k0) eqn:E; [|reflexivity].
    apply String.eqb_eq in E. congruence.
  - destruct (String.eqb k' k) eqn:E; simpl.
    + apply String.eqb_eq in E. subst k'.
      destruct (String.eqb k k0) eqn:E0; [|reflexivity].
      apply String.eqb_eq in E0. congruence.
    + now rewrite IH.
Qed.

Lemma dict_keys_set (d : Dict) (k : string) (v : Resultado) :
  dict_keys (dict_set d k v) =
  if contiene k (dict_keys d) then dict_keys d else dict_keys d ++ [k].
Proof.
  unfold dict_keys, contiene.
  induction d as [|[k' v'] resto IH]; simpl; [reflexivity|].
  rewrite (String.eqb_sym k k').
  destruct (String.eqb k' k); simpl; [reflexivity|].
  rewrite IH. now destruct (existsb (String.eqb k) (map fst resto)).
Qed.

Lemma dict_get_In (d : Dict) (k : string) (v : Resultado) :
  In (k, v) d -> exists v', dict_get d k = Some v'.
Proof.
  induction d as [|[k' v'] resto IH]; simpl; [contradiction|].
  intros [[= -> ->] | H].
  - rewrite String.eqb_refl. eauto.
  - destruct (String.eqb k' k); eauto.
Qed.

(* ================================================================== *)
(** ** [verificar_multiples_columnas]: outcome and effect *)
(* ================================================================== *)

(** The loop: its outcome and every line it prints. *)
Lemma bucle_traza (verbose : bool) (columnas : list string) : forall d st,
  bucle_columnas columnas verbose d st =
  (informes verbose (tabla st) columnas d,
   mkEstado (tabla st)
     (consola st ++ if verbose then lineas_bucle (tabla st) columnas else [])).
Proof.
  induction columnas as [|col resto IH]; intros d st.
  - simpl. unfold ret. destruct verbose; now rewrite estado_sin_lineas.
  - cbn [bucle_columnas informes lineas_bucle].
    destruct verbose.
    + unfold bind at 1. unfold cuando, print at 1. unfold bind at 1.
      rewrite verificar_columna_traza. simpl.
      destruct (informe_de true (tabla st) col) as [r|e].
      * rewrite IH. simpl. now rewrite <- !app_assoc.
      * rewrite app_nil_r. now rewrite <- !app_assoc.
    + unfold bind at 1. unfold cuando, ret at 1. unfold bind at 1.
      rewrite verificar_columna_traza. simpl.
      rewrite estado_sin_lineas.
      destruct (informe_de false (tabla st) col) as [r|e]; [|reflexivity].
      rewrite IH. now rewrite estado_sin_lineas.
Qed.

Lemma imprime_items_lineas (cols : list string) :
  imprime (imprime_items cols) (map LItem cols).
Proof.
  induction cols as [|c resto IH]; simpl; [apply imprime_ret|].
  apply (imprime_seq _ _ [_] _ (imprime_print _) IH).
Qed.

Lemma imprime_problematicos_lineas (d : Dict) (cols : list string) :
  (forall c, In c cols -> exists v, dict_get d c = Some v) ->
  imprime (imprime_problematicos d cols) (map (linea_problematica d) cols).
Proof.
  induction cols as [|c resto IH]; simpl; intros H; [apply imprime_ret|].
  unfold linea_problematica at 1.
  destruct (H c (or_introl eq_refl)) as [v ->].
  apply (imprime_seq _ _ [_] _ (imprime_print _)).
  apply IH. intros c' Hc'. apply H. now right.
Qed.

(** The summary looks up only keys of the dict, so it never fails. *)
Lemma imprime_resumen (d : Dict) : imprime (resumen d) (lineas_resumen d).
Proof.
  unfold resumen, lineas_resumen, numericas, no_numericas.
  pose proof (imprime_items_lineas
                (map fst (filter (fun cr => es_numerica (snd cr)) d))) as Hi.
  assert (Hg : forall c, In c (map fst (filter (fun cr => negb (es_numerica (snd cr))) d)) ->
                 exists v, dict_get d c = Some v).
  { intros c' Hc'.
    apply in_map_iff in Hc'. destruct Hc' as ([k v] & <- & Hin).
    apply filter_In in Hin. destruct Hin as [Hin _].
    eapply dict_get_In; eauto. }
  apply imprime_problematicos_lineas in Hg.
  destruct (map fst (filter (fun cr => negb (es_numerica (snd cr))) d))
    as [|c resto].
  - eapply imprime_ext.
    + do 4 (eapply imprime_seq; [apply imprime_print|]).
      eapply imprime_seq; [exact Hi | apply imprime_ret].
    + simpl. now rewrite length_map.
  - eapply imprime_ext.
    + do 4 (eapply imprime_seq; [apply imprime_print|]).
      eapply imprime_seq; [exact Hi|].
      eapply imprime_seq; [apply imprime_print | exact Hg].
    + simpl. now rewrite length_map.
Qed.

(** A batch: its outcome and every line it prints. *)
Lemma verificar_multiples_traza (columnas : option (list string))
    (verbose : bool) (st : Estado) :
  verificar_multiples_columnas columnas verbose st =
  (informes verbose (tabla st) (columnas_pedidas (tabla st) columnas) [],
   mkEstado (tabla st)
     (consola st ++ if verbose then lineas_multiples (tabla st) columnas else [])).
Proof.
  unfold verificar_multiples_columnas, lineas_multiples.
  rewrite bind_leer.
  fold (columnas_pedidas (tabla st) columnas).
  destruct verbose.
  - unfold bind at 1.
    assert (Hp : imprime
                   (cuando true
                      (print (LSeparador "=" 60) ;; print LTitulo ;;
                       print (LSeparador "=" 60)))
                   [LSeparador "=" 60; LTitulo; LSeparador "=" 60]).
    { eapply imprime_ext; [simpl; imprime_lineas | reflexivity]. }
    rewrite Hp. unfold bind at 1. rewrite bucle_traza. simpl.
    destruct (informes true (tabla st) (columnas_pedidas (tabla st) columnas) [])
      as [d|e].
    + unfold bind, cuando. rewrite imprime_resumen. unfold ret. simpl.
      now rewrite <- !app_assoc.
    + rewrite app_nil_r. now rewrite <- !app_assoc.
  - unfold bind, cuando, ret. rewrite bucle_traza.
    rewrite !estado_sin_lineas.
    now destruct (informes false (tabla st)
                    (columnas_pedidas (tabla st) columnas) []).
Qed.

Lemma verificar_multiples_fst columnas verbose st :
  fst (verificar_multiples_columnas columnas verbose st)
  = informes verbose (tabla st) (columnas_pedidas (tabla st) columnas) [].
Proof. now rewrite verificar_multiples_traza. Qed.

Lemma verificar_multiples_callada columnas st :
  snd (verificar_multiples_columnas columnas false st) = st.
Proof. rewrite verificar_multiples_traza. simpl. apply estado_sin_lineas. Qed.

(* ================================================================== *)
(** ** The loop over the requested columns *)
(* ================================================================== *)

Lemma filter_filter_ext {A} (p q r : A -> bool) (l : list A) :
  (forall x, r x = q x && p x) -> filter p (filter q l) = filter r l.
Proof.
  intros H. induction l as [|x l IH]; simpl; [reflexivity|].
  rewrite H. destruct (q x); simpl; [|exact IH].
  destruct (p x); now rewrite IH.
Qed.

Lemma contiene_app (c : string) (l1 l2 : list string) :
  contiene c (l1 ++ l2) = contiene c l1 || contiene c l2.
Proof. unfold contiene. apply existsb_app. Qed.

Lemma sin_repetir_In (c : string) (cols : list string) :
  In c (sin_repetir cols) <-> In c cols.
Proof.
  induction cols as [|x resto IH]; simpl; [tauto|].
  rewrite filter_In, IH. split.
  - tauto.
  - intros [-> | H]; [now left|].
    destruct (String.eqb x c) eqn:E.
    + apply String.eqb_eq in E. now left.
    + right. now split.
Qed.

Lemma sin_repetir_NoDup (cols : list string) :
  NoDup cols -> sin_repetir cols = cols.
Proof.
  induction 1 as [|x resto Hx Hnd IH]; simpl; [reflexivity|].
  rewrite IH. f_equal.
  apply forallb_filter_id. apply forallb_forall. intros y Hy.
  destruct (String.eqb x y) eqn:E; [|reflexivity].
  apply String.eqb_eq in E. congruence.
Qed.

(** When the loop ends, every requested name has its report in the dict,
    the other keys are untouched, and the new keys follow the old ones in
    the order in which the names were first requested. *)
Lemma informes_ok (verbose : bool) (df : DataFrame) (cols : list string) :
  forall d d',
    informes verbose df cols d = Ok d' ->
    (forall c, In c cols ->
       exists r, informe_de verbose df c = Ok r /\ dict_get d' c = Some r)
    /\ (forall c, ~ In c cols -> dict_get d' c = dict_get d c)
    /\ dict_keys d' =
       dict_keys d ++
       filter (fun c => negb (contiene c (dict_keys d))) (sin_repetir cols).
Proof.
  induction cols as [|col resto IH]; intros d d'; simpl.
  - intros [= <-]. repeat split; [contradiction | now rewrite app_nil_r].
  - destruct (informe_de verbose df col) as [r|e] eqn:Hr; [|discriminate].
    intros H. destruct (IH _ _ H) as (Hin & Hout & Hkeys).
    split; [|split].
    + intros c [<- | Hc]; [|now apply Hin].
      destruct (in_dec string_dec col resto) as [Hc | Hc].
      * destruct (Hin _ Hc) as (r' & Hr' & Hg). exists r'. split; congruence.
      * exists r. split; [exact Hr|].
        rewrite (Hout _ Hc). apply dict_get_set_eq.
    + intros c Hc. rewrite Hout by tauto.
      apply dict_get_set_neq. intros ->. tauto.
    + rewrite Hkeys, dict_keys_set.
      destruct (contiene col (dict_keys d)) eqn:Hc; simpl.
      * f_equal. symmetry. apply filter_filter_ext. intros x.
        destruct (String.eqb col x) eqn:E; simpl; [|reflexivity].
        apply String.eqb_eq in E. subst x. now rewrite Hc.
      * rewrite <- app_assoc. simpl. do 2 f_equal.
        symmetry. apply filter_filter_ext. intros x.
        rewrite contiene_app. unfold contiene at 2. simpl.
        rewrite orb_false_r, (String.eqb_sym x col).
        destruct (String.eqb col x), (contiene x (dict_keys d)); reflexivity.
Qed.

Lemma informes_total (verbose : bool) (df : DataFrame) (cols : list string) :
  (forall c, In c cols -> exists r, informe_de verbose df c = Ok r) ->
  forall d, exists d', informes verbose df cols d = Ok d'.
Proof.
  induction cols as [|col resto IH]; intros H d; simpl; [eauto|].
  destruct (H col (or_introl eq_refl)) as [r ->].
  apply IH. intros c Hc. apply H. now right.
Qed.

(** The loop stops at the first requested name whose call raises. *)
Lemma informes_primera_falla (verbose : bool) (df : DataFrame)
    (pre post : list string)
    (c : string) (e : Excepcion) :
  (forall x, In x pre -> exists r, informe_de verbose df x = Ok r) ->
  informe_de verbose df c = Raise e ->
  forall d, informes verbose df (pre ++ c :: post) d = Raise e.
Proof.
  induction pre as [|x pre IH]; intros Hpre Hc d; simpl.
  - now rewrite Hc.
  - destruct (Hpre x (or_introl eq_refl)) as [r ->].
    apply IH; [|exact Hc]. intros y Hy. apply Hpre. now right.
Qed.

(** A requested name that the table lacks: the batch raises and no dict is
    returned; the exception is the one for that name whenever the calls for
    the names before it return. *)
Lemma multiples_columna_ausente (st : Estado) (verbose : bool)
    (pre post : list string) (c : string) :
  ~ In c (columns (tabla st)) ->
  (exists e, fst (verificar_multiples_columnas (Some (pre ++ c :: post)) verbose st)
             = Raise e)
  /\ ((forall x, In x pre ->
         exists r, fst (verificar_columna_numerica x verbose st) = Ok r) ->
      fst (verificar_multiples_columnas (Some (pre ++ c :: post)) verbose st)
      = Raise (ValueError (ColumnaNoExiste c (columns (tabla st))))).
Proof.
  intros Hc. apply contiene_false in Hc.
  pose proof (informe_de_raise verbose _ _ _ (informe_ausente _ _ Hc)) as Hinf.
  rewrite verificar_multiples_fst. simpl. split.
  - destruct (informes verbose (tabla st) (pre ++ c :: post) []) as [d|e] eqn:H;
      [|eauto].
    destruct (informes_ok _ _ _ _ _ H) as (Hin & _).
    destruct (Hin c) as (r & Hr & _); [apply in_elt | congruence].
  - intros Hpre. apply informes_primera_falla; [|exact Hinf].
    intros x Hx. destruct (Hpre x Hx) as [r Hr].
    rewrite verificar_columna_fst in Hr. eauto.
Qed.

(** When the call for every requested name returns, the batch returns a
    dict with one key per requested name, in the order of first request,
    and under each key the report of the single call. *)
Lemma multiples_columnas_ok (st : Estado) (verbose : bool)
    (columnas : option (list string)) :
  (forall c, In c (columnas_pedidas (tabla st) columnas) ->
     exists r, fst (verificar_columna_numerica c verbose st) = Ok r) ->
  exists d,
    fst (verificar_multiples_columnas columnas verbose st) = Ok d
    /\ dict_keys d = sin_repetir (columnas_pedidas (tabla st) columnas)
    /\ forall c, In c (columnas_pedidas (tabla st) columnas) ->
         exists r, fst (verificar_columna_numerica c verbose st) = Ok r
                   /\ dict_get d c = Some r.
Proof.
  intros H. rewrite verificar_multiples_fst.
  destruct (informes_total verbose (tabla st)
              (columnas_pedidas (tabla st) columnas))
    with (d := @nil (string * Resultado)) as [d Hd].
  { intros c Hc. destruct (H c Hc) as [r Hr].
    rewrite verificar_columna_fst in Hr. eauto. }
  exists d. split; [exact Hd|].
  destruct (informes_ok _ _ _ _ _ Hd) as (Hin & _ & Hkeys).
  split.
  - rewrite Hkeys. simpl.
    apply forallb_filter_id. apply forallb_forall. reflexivity.
  - intros c Hc. destruct (Hin c Hc) as (r & Hr & Hg).
    exists r. rewrite verificar_columna_fst. auto.
Qed.

(* ================================================================== *)
(** ** Batches, the table and the console *)
(* ================================================================== *)

(** C6, at the input where it fails. The table has the object column ["g"]
    with the integer [2**1024] and no column ["falta"]. Asked for
    [["g", "falta"]], the batch raises the [OverflowError] that [float]
    raised in column ["g"] and that line 75 does not catch, not the error of
    the missing name; asked for [["b", "falta"]], it raises the error of the
    missing name. *)
Theorem C6_lote_con_desborde :
  bien_formado df_grande
  /\ ~ In "falta" (columns df_grande)
  /\ fst (verificar_multiples_columnas (Some ["g"; "falta"]) false st_grande)
     = Raise OverflowError
  /\ fst (verificar_multiples_columnas (Some ["b"; "falta"]) false st_grande)
     = Raise (ValueError (ColumnaNoExiste "falta" ["g"; "b"])).
Proof.
  split; [exact df_grande_bien_formado|].
  split; [simpl; intuition discriminate|].
  split; vm_compute; reflexivity.
Qed.

(** C7, at the input where it fails. Every requested column is in the
    table, yet the batch returns no dict: the integer [2**1024] of column
    ["g"] makes [float] raise an [OverflowError] that line 75 does not
    catch. The same holds when no list is given. *)
Theorem C7_lote_sin_dict :
  bien_formado df_grande
  /\ In "g" (columns df_grande)
  /\ fst (verificar_columna_numerica "g" false st_grande) = Raise OverflowError
  /\ fst (verificar_multiples_columnas (Some ["g"]) false st_grande)
     = Raise OverflowError
  /\ fst (verificar_multiples_columnas None false st_grande)
     = Raise OverflowError.
Proof.
  split; [exact df_grande_bien_formado|].
  split; [now left|].
  repeat split; vm_compute; reflexivity.
Qed.

(** C8. Whatever the arguments, and whether the call returns or raises, the
    table is after the call what it was before it, for both functions. *)
Theorem C8_tabla_intacta :
  forall st columna columnas verbose,
    tabla (snd (verificar_columna_numerica columna verbose st)) = tabla st
    /\ tabla (snd (verificar_multiples_columnas columnas verbose st)) = tabla st.
Proof.
  intros st columna columnas verbose. split.
  - apply verificar_columna_tabla.
  - now rewrite verificar_multiples_traza.
Qed.

(** C9, at the input where it fails. The table has a two-level
    [MultiIndex], so its row labels are tuples, and the text column ["t"]
    has one cell that is not a number. With [verbose=False] the call
    returns the report. With [verbose=True] the row of line 127 puts the
    label under the width [<10], a tuple does not take it, and the call
    raises [TypeError] after the heading lines are printed. The batch does
    the same. *)
Theorem C9_verbose_cambia_resultado :
  bien_formado df_multi
  /\ In "t" (columns df_multi)
  /\ fst (verificar_columna_numerica "t" false st_multi) = Ok informe_t
  /\ fst (verificar_columna_numerica "t" true st_multi) = Raise TypeError
  /\ fst (verificar_multiples_columnas (Some ["t"]) false st_multi)
     = Ok [("t", informe_t)]
  /\ fst (verificar_multiples_columnas (Some ["t"]) true st_multi)
     = Raise TypeError
  /\ consola (snd (verificar_columna_numerica "t" true st_multi)) <> [].
Proof.
  split; [exact df_multi_bien_formado|].
  split; [now left|].
  repeat split; try (vm_compute; reflexivity).
  vm_compute. discriminate.
Qed.
(* ================================================================== *)
(** ** Further properties of [verificar_columna_numerica] *)
(* ================================================================== *)

Lemma primera_fuga_app (a b : list (Etiqueta * Objeto)) :
  primera_fuga (a ++ b) =
  match primera_fuga a with
  | Some e => Some e
  | None => primera_fuga b
  end.
Proof.
  induction a as [|fila a IH]; simpl; [reflexivity|].
  now destruct (escapa fila).
Qed.


Lemma formato_filas_app (a b : list (Etiqueta * Objeto)) :
  formato_filas a = Ok tt -> formato_filas b = Ok tt ->
  formato_filas (a ++ b) = Ok tt.
Proof.
  intros Ha Hb. induction a as [|[idx val] a IH]; simpl in *; [exact Hb|].
  destruct (formato_ancho idx); [now apply IH | discriminate].
Qed.

Lemma formato_filas_con_ancho (pares : list (Etiqueta * Objeto)) :
  Forall (fun par => con_ancho (fst par) = true) pares ->
  formato_filas pares = Ok tt.
Proof.
  induction 1 as [|[idx val] pares Hidx _ IH]; simpl; [reflexivity|].
  unfold con_ancho in Hidx. simpl in Hidx.
  destruct (formato_ancho idx) as [[]|e]; [exact IH | discriminate].
Qed.

(** X1. An exception of the validation itself (a missing or repeated
    column name, a cell that ends the scan) is raised before anything is
    printed: when the call with [verbose=False] raises, the call with
    either value of [verbose] raises the same exception and leaves the
    state, console included, as it was. *)
Theorem X1_fallo_antes_de_imprimir :
  forall st columna e,
    fst (verificar_columna_numerica columna false st) = Raise e ->
    forall verbose,
      verificar_columna_numerica columna verbose st = (Raise e, st).
Proof.
  intros st columna e H verbose.
  rewrite verificar_columna_fst, informe_de_silencio in H.
  rewrite verificar_columna_traza, (informe_de_raise _ _ _ _ H).
  unfold lineas_verificar. rewrite H.
  destruct verbose; [destruct (getitem (tabla st) columna)|];
    now rewrite estado_sin_lineas.
Qed.

(** X1, instance: the column with [2**1024], [verbose=True]. *)
Lemma X1_fallo_antes_de_imprimir_witness :
  verificar_columna_numerica "g" true st_grande = (Raise OverflowError, st_grande).
Proof.
  exact (X1_fallo_antes_de_imprimir st_grande "g" OverflowError eq_refl true).
Defined.

(** X2. A column with no cell that is not missing, an empty one included, is
    reported numeric: nothing is recorded, and every row is counted and
    listed among the missing ones. *)
Theorem X2_columna_sin_datos :
  forall st columna verbose serie,
    getitem (tabla st) columna = Ok serie ->
    Forall (fun fila => isnull (snd fila) = true) (items serie) ->
    exists r,
      fst (verificar_columna_numerica columna verbose st) = Ok r
      /\ es_numerica r = true
      /\ valores_no_numericos r = []
      /\ indices_no_numericos r = []
      /\ cantidad_no_numericos r = 0
      /\ valores_nulos r = total_valores r
      /\ indices_nulos r = map fst (items serie).
Proof.
  intros st columna verbose serie Hget Hall.
  rewrite verificar_columna_fst.
  assert (Hnulos : filter (fun fila => isnull (snd fila)) (items serie)
                   = items serie).
  { apply forallb_filter_id. apply forallb_forall.
    now rewrite Forall_forall in Hall. }
  destruct (is_numeric_dtype (dtype serie)) eqn:Hnum.
  - exists (informe_numerico serie). split.
    + apply informe_de_devuelve; [|reflexivity].
      now rewrite (informe_presente _ _ _ Hget), Hnum.
    + simpl. rewrite Hnulos. auto 10.
  - assert (Hf : primera_fuga (items serie) = None).
    { apply primera_fuga_none. rewrite Forall_forall in *.
      intros fila Hin. specialize (Hall _ Hin). unfold escapa.
      destruct (snd fila); simpl in *; try discriminate;
        now rewrite ?Hall. }
    assert (Hn : filter no_numerico (items serie) = []).
    { apply filter_nil_Forall. rewrite Forall_forall in *.
      intros fila Hin. unfold no_numerico. now rewrite (Hall _ Hin). }
    eexists. split.
    + apply informe_de_devuelve.
      * rewrite (informe_presente _ _ _ Hget), Hnum.
        unfold escaneo. rewrite Hf, Hn. reflexivity.
      * reflexivity.
    + simpl. rewrite Hnulos. auto 10.
Qed.

(** X2, instance: the column [[None, NaN, None]]. *)
Lemma X2_columna_sin_datos_witness :
  exists r,
    fst (verificar_columna_numerica "n" true st_nulos) = Ok r
    /\ es_numerica r = true
    /\ valores_nulos r = total_valores r.
Proof.
  destruct (X2_columna_sin_datos st_nulos "n" true serie_n eq_refl)
    as (r & Hr & Hes & _ & _ & _ & Hn & _).
  - repeat constructor.
  - exists r. auto.
Defined.




(** X4. Stacking two columns of one storage type: when both get a report,
    the stacked column gets the report whose lists are the two lists one
    after the other and whose counts are the sums; it is numeric exactly
    when both are. *)
Theorem X4_concatenacion :
  forall st1 st2 st12 c1 c2 c12 verbose s1 s2 r1 r2,
    getitem (tabla st1) c1 = Ok s1 ->
    getitem (tabla st2) c2 = Ok s2 ->
    getitem (tabla st12) c12 = Ok (concat s1 s2) ->
    dtype s2 = dtype s1 ->
    fst (verificar_columna_numerica c1 verbose st1) = Ok r1 ->
    fst (verificar_columna_numerica c2 verbose st2) = Ok r2 ->
    exists r,
      fst (verificar_columna_numerica c12 verbose st12) = Ok r
      /\ es_numerica r = es_numerica r1 && es_numerica r2
      /\ valores_no_numericos r = valores_no_numericos r1 ++ valores_no_numericos r2
      /\ indices_no_numericos r = indices_no_numericos r1 ++ indices_no_numericos r2
      /\ cantidad_no_numericos r = cantidad_no_numericos r1 + cantidad_no_numericos r2
      /\ total_valores r = total_valores r1 + total_valores r2
      /\ valores_nulos r = valores_nulos r1 + valores_nulos r2
      /\ indices_nulos r = indices_nulos r1 ++ indices_nulos r2.
Proof.
  intros st1 st2 st12 c1 c2 c12 verbose s1 s2 r1 r2 H1 H2 H12 Hd Hr1 Hr2.
  rewrite verificar_columna_fst in *.
  apply informe_de_ok in Hr1. destruct Hr1 as [Hr1 Hf1'].
  apply informe_de_ok in Hr2. destruct Hr2 as [Hr2 Hf2'].
  destruct (informe_ok _ _ _ Hr1) as (s1' & H1' & Hc1).
  destruct (informe_ok _ _ _ Hr2) as (s2' & H2' & Hc2).
  assert (s1' = s1) by congruence. assert (s2' = s2) by congruence.
  subst s1' s2'. rewrite Hd in Hc2.
  destruct Hc1 as [[Hn1 ->] | (Hn1 & Hf1 & ->)];
    destruct Hc2 as [[Hn2 ->] | (Hn2 & Hf2 & ->)]; try congruence.
  - exists (informe_numerico (concat s1 s2)). split.
    + apply informe_de_devuelve; [|reflexivity].
      rewrite (informe_presente _ _ _ H12). simpl. rewrite Hn1. reflexivity.
    + simpl. rewrite !filter_app, !map_app, !length_app. auto 10.
  - eexists. split.
    + apply informe_de_devuelve.
      * rewrite (informe_presente _ _ _ H12). simpl. rewrite Hn1.
        unfold escaneo. simpl. rewrite primera_fuga_app, Hf1, Hf2.
        reflexivity.
      * intros Hv. specialize (Hf1' Hv). specialize (Hf2' Hv).
        simpl in *. rewrite combine_map in *.
        rewrite filter_app, map_app.
        now apply formato_filas_app.
    + simpl. rewrite !filter_app, !map_app, !length_app. repeat split.
      destruct (filter no_numerico (items s1)),
               (filter no_numerico (items s2)); reflexivity.
Qed.

(** X4, instance: columns ["b"] and ["e"] stacked as ["bb"]. *)
Lemma X4_concatenacion_witness :
  exists r,
    fst (verificar_columna_numerica "bb" false st_doble) = Ok r
    /\ valores_no_numericos r = [PyStr "abc"; PyStr "abc"]
    /\ indices_no_numericos r = [EInt 1; EInt 1].
Proof.
  destruct (X4_concatenacion st_ejemplo st_ejemplo st_doble "b" "e" "bb" false
              serie_b serie_e informe_b informe_e
              eq_refl eq_refl eq_refl eq_refl eq_refl eq_refl)
    as (r & Hr & _ & Hv & Hi & _).
  exists r. auto.
Defined.



(* ------------------------------------------------------------------ *)
(** *** Stripping and the verdict *)

Ltac por_caracter c :=
  destruct c as [[] [] [] [] [] [] [] []]; try reflexivity; try discriminate.

Lemma es_blanco_espacio (c : ascii) : es_blanco c = true -> es_espacio c = true.
Proof. por_caracter c. Qed.

Lemma minuscula_espacio (c : ascii) :
  es_espacio (minuscula c) = false -> es_espacio c = false.
Proof. por_caracter c. Qed.

Lemma es_digito_espacio (c : ascii) : es_digito c = true -> es_espacio c = false.
Proof. por_caracter c. Qed.

Lemma sin_espacios_resto_digitos (s : string) :
  sin_espacios (resto_digitos s) = true -> sin_espacios s = true.
Proof.
  induction s as [|c r IH]; [reflexivity|].
  cbn [resto_digitos].
  destruct (es_digito c) eqn:Hd.
  - intros H. cbn [sin_espacios]. rewrite (es_digito_espacio _ Hd). now apply IH.
  - destruct (Ascii.eqb c "_") eqn:Hu; [|trivial].
    destruct r as [|d r']; [trivial|].
    destruct (es_digito d); [|trivial].
    intros H. apply Ascii.eqb_eq in Hu. subst c.
    pose proof (IH H) as Hr.
    change (negb (es_espacio "_") && sin_espacios (String d r') = true).
    now rewrite Hr.
Qed.

Lemma sin_espacios_digitpart (s r : string) :
  digitpart s = Some r -> sin_espacios r = true -> sin_espacios s = true.
Proof.
  destruct s as [|c s']; [discriminate|]. cbn [digitpart].
  destruct (es_digito c) eqn:Hd; [|discriminate].
  intros [= <-] H. cbn [sin_espacios].
  rewrite (es_digito_espacio _ Hd). now apply sin_espacios_resto_digitos.
Qed.

Lemma sin_espacios_quita_signo (s : string) :
  sin_espacios (quita_signo s) = true -> sin_espacios s = true.
Proof.
  destruct s as [|c r]; [reflexivity|]. cbn [quita_signo].
  destruct (Ascii.eqb c "+") eqn:Hp.
  - apply Ascii.eqb_eq in Hp. subst c. simpl. trivial.
  - destruct (Ascii.eqb c "-") eqn:Hm; [|trivial].
    apply Ascii.eqb_eq in Hm. subst c. simpl. trivial.
Qed.

Lemma sin_espacios_exponente (s : string) :
  exponente_y_fin s = true -> sin_espacios s = true.
Proof.
  destruct s as [|c r]; [reflexivity|]. cbn [exponente_y_fin].
  destruct (Ascii.eqb (minuscula c) "e") eqn:He; [|discriminate].
  destruct (digitpart (quita_signo r)) as [[|]|] eqn:Hd; try discriminate.
  intros _. cbn [sin_espacios].
  apply Ascii.eqb_eq in He.
  rewrite (minuscula_espacio c) by now rewrite He.
  apply sin_espacios_quita_signo.
  now apply (sin_espacios_digitpart _ _ Hd).
Qed.

Lemma sin_espacios_punto (r : string) :
  sin_espacios r = true -> sin_espacios (String "." r) = true.
Proof. intros H. cbn [sin_espacios]. now rewrite H. Qed.

Lemma sin_espacios_numero (s : string) :
  numero s = true -> sin_espacios s = true.
Proof.
  unfold numero.
  destruct (digitpart s) as [r|] eqn:Hd.
  - intros H. apply (sin_espacios_digitpart _ _ Hd).
    destruct r as [|c r']; [reflexivity|].
    destruct (Ascii.eqb c ".") eqn:Hp.
    + apply Ascii.eqb_eq in Hp. subst c.
      apply sin_espacios_punto.
      destruct (digitpart r') as [r''|] eqn:Hd'.
      * apply (sin_espacios_digitpart _ _ Hd').
        now apply sin_espacios_exponente.
      * now apply sin_espacios_exponente.
    + apply sin_espacios_exponente.
      destruct c as [[] [] [] [] [] [] [] []]; try exact H; discriminate Hp.
  - destruct s as [|c r']; [discriminate|].
    destruct (Ascii.eqb c ".") eqn:Hp.
    + apply Ascii.eqb_eq in Hp. subst c.
      destruct (digitpart r') as [r''|] eqn:Hd'; [|discriminate].
      intros H. apply sin_espacios_punto.
      apply (sin_espacios_digitpart _ _ Hd').
      now apply sin_espacios_exponente.
    + destruct c as [[] [] [] [] [] [] [] []]; try discriminate.
Qed.

Lemma sin_espacios_minusculas (t : string) :
  sin_espacios (minusculas t) = true -> sin_espacios t = true.
Proof.
  induction t as [|c r IH]; [reflexivity|]. cbn [minusculas sin_espacios].
  intros H. apply andb_prop in H. destruct H as [Hc Hr].
  rewrite (minuscula_espacio c) by now destruct (es_espacio (minuscula c)).
  now apply IH.
Qed.

(** Whatever [float] reads, once the blanks around it are dropped, has no
    character [str.strip] would drop. *)
Lemma texto_flotante_sin_espacios (s : string) :
  texto_flotante s = true -> sin_espacios (sin_blancos s) = true.
Proof.
  unfold texto_flotante. intros H.
  apply sin_espacios_quita_signo.
  apply orb_prop in H. destruct H as [H | H]; [|now apply sin_espacios_numero].
  apply sin_espacios_minusculas.
  apply orb_prop in H. destruct H as [H | H];
    [apply orb_prop in H; destruct H as [H | H]|];
    apply String.eqb_eq in H; now rewrite H.
Qed.

Section Recortes.

Variables esp1 esp2 : ascii -> bool.
Hypothesis esp12 : forall c, esp1 c = true -> esp2 c = true.

Lemma quita_izquierda_dos (s : string) :
  quita_izquierda esp2 (quita_izquierda esp1 s) = quita_izquierda esp2 s.
Proof.
  induction s as [|c r IH]; [reflexivity|]. cbn [quita_izquierda].
  destruct (esp1 c) eqn:H1.
  - now rewrite (esp12 _ H1).
  - reflexivity.
Qed.

Lemma quita_derecha_dos (s : string) :
  quita_derecha esp2 (quita_derecha esp1 s) = quita_derecha esp2 s.
Proof.
  induction s as [|c r IH]; [reflexivity|]. cbn [quita_derecha].
  destruct (quita_derecha esp1 r) as [|d u] eqn:E.
  - cbn [quita_derecha] in IH. rewrite <- IH.
    destruct (esp1 c) eqn:H1.
    + now rewrite (esp12 _ H1).
    + reflexivity.
  - cbn [quita_derecha]. cbn [quita_derecha] in IH. now rewrite IH.
Qed.

Lemma quita_cruzado (s : string) :
  quita_izquierda esp2 (quita_derecha esp1 s)
  = quita_derecha esp1 (quita_izquierda esp2 s).
Proof.
  induction s as [|c r IH]; [reflexivity|].
  cbn [quita_izquierda]. destruct (esp2 c) eqn:H2.
  - rewrite <- IH. cbn [quita_derecha].
    destruct (quita_derecha esp1 r) as [|d u].
    + destruct (esp1 c); cbn [quita_izquierda]; now rewrite ?H2.
    + cbn [quita_izquierda]. now rewrite H2.
  - assert (H1 : esp1 c = false).
    { destruct (esp1 c) eqn:E; [|reflexivity].
      rewrite (esp12 _ E) in H2. discriminate. }
    cbn [quita_derecha].
    destruct (quita_derecha esp1 r) as [|d u]; rewrite ?H1;
      cbn [quita_izquierda]; now rewrite H2.
Qed.

End Recortes.

Lemma quita_izquierda_limpio (esp : ascii -> bool) (t : string) :
  (forall c, esp c = true -> es_espacio c = true) ->
  sin_espacios t = true -> quita_izquierda esp t = t.
Proof.
  intros Hesp. destruct t as [|c r]; [reflexivity|]. cbn [sin_espacios quita_izquierda].
  intros H. apply andb_prop in H. destruct H as [Hc _].
  destruct (esp c) eqn:E; [|reflexivity].
  rewrite (Hesp _ E) in Hc. discriminate.
Qed.

Lemma quita_derecha_limpio (esp : ascii -> bool) (t : string) :
  (forall c, esp c = true -> es_espacio c = true) ->
  sin_espacios t = true -> quita_derecha esp t = t.
Proof.
  intros Hesp. induction t as [|c r IH]; [reflexivity|].
  cbn [sin_espacios quita_derecha].
  intros H. apply andb_prop in H. destruct H as [Hc Hr].
  rewrite (IH Hr). destruct r; [|reflexivity].
  destruct (esp c) eqn:E; [|reflexivity].
  rewrite (Hesp _ E) in Hc. discriminate.
Qed.

(** [str.strip] takes away at least what [float] skips. *)
Lemma strip_sin_blancos (s : string) : strip (sin_blancos s) = strip s.
Proof.
  unfold strip, rstrip, lstrip, sin_blancos.
  rewrite (quita_cruzado es_blanco es_espacio es_blanco_espacio).
  rewrite (quita_derecha_dos es_blanco es_espacio es_blanco_espacio).
  now rewrite (quita_izquierda_dos es_blanco es_espacio es_blanco_espacio).
Qed.

(** A text [float] reads is still read once stripped. *)
Lemma texto_flotante_strip (s : string) :
  texto_flotante s = true -> texto_flotante (strip s) = true.
Proof.
  intros H. pose proof (texto_flotante_sin_espacios _ H) as Hl.
  assert (Hs : strip s = sin_blancos s).
  { rewrite <- strip_sin_blancos. unfold strip, rstrip, lstrip.
    rewrite (quita_izquierda_limpio es_espacio) by auto.
    now apply quita_derecha_limpio. }
  assert (Hb : sin_blancos (strip s) = sin_blancos s).
  { rewrite Hs. unfold sin_blancos at 1.
    rewrite (quita_izquierda_limpio es_blanco _ es_blanco_espacio Hl).
    now apply quita_derecha_limpio; [apply es_blanco_espacio|]. }
  unfold texto_flotante in *. now rewrite Hb.
Qed.

(** X6. Stripping a text before the conversion never causes a cell to be
    recorded: in the report of a scanned column, a text recorded under its
    stripped form is a text [float] rejects as it stands. (The converse
    fails: a text padded with a separator FS..US is rejected as it stands
    and accepted once stripped.) *)
Theorem X6_strip_solo_perdona :
  forall st columna verbose serie r,
    getitem (tabla st) columna = Ok serie ->
    is_numeric_dtype (dtype serie) = false ->
    fst (verificar_columna_numerica columna verbose st) = Ok r ->
    forall idx s,
      In (idx, PyStr (strip s))
         (combine (indices_no_numericos r) (valores_no_numericos r)) ->
      float (PyStr s) <> Ok tt.
Proof.
  intros st columna verbose serie r Hget Hnum Hr idx s Hin.
  apply verificar_columna_ok in Hr.
  destruct (informe_ok _ _ _ Hr) as (serie' & Hget' & Hcasos).
  assert (serie' = serie) by congruence. subst serie'.
  destruct Hcasos as [[Hnum' _] | (_ & Hfuga & ->)]; [congruence|].
  simpl in Hin. rewrite combine_map, in_map_iff in Hin.
  destruct Hin as ([i v] & Heq & Hf). simpl in Heq. injection Heq as -> Hv.
  apply filter_In in Hf. destruct Hf as [_ Hp].
  destruct v; simpl in Hv; try discriminate. injection Hv as Hv.
  unfold no_numerico in Hp. simpl in Hp.
  assert (Ht : texto_flotante (strip s) = false).
  { rewrite <- Hv. destruct (texto_flotante (strip s0));
      [discriminate | reflexivity]. }
  simpl. destruct (texto_flotante s) eqn:E; [|discriminate].
  rewrite (texto_flotante_strip _ E) in Ht. discriminate.
Qed.

(** X6, instance: the padded cell [" abc "] of column ["e"]. *)
Lemma X6_strip_solo_perdona_witness : float (PyStr " abc ") <> Ok tt.
Proof.
  apply (X6_strip_solo_perdona st_ejemplo "e" true serie_e informe_e
           eq_refl eq_refl eq_refl (EInt 1) " abc ").
  left. reflexivity.
Defined.

(* ------------------------------------------------------------------ *)
(** *** What a verbose call shows *)

Lemma filter_fila_map (l : list (Etiqueta * Objeto)) :
  filter es_fila (map linea_fila l) = map linea_fila l.
Proof. induction l as [|x l IH]; simpl; [reflexivity | now rewrite IH]. Qed.

Lemma filter_indices_map (l : list (Etiqueta * Objeto)) :
  filter es_indices_nulos (map linea_fila l) = [].
Proof. induction l as [|x l IH]; simpl; [reflexivity | exact IH]. Qed.

Lemma filter_fila_detalle (r : Resultado) :
  filter es_fila (lineas_detalle_nulos r) = [].
Proof. unfold lineas_detalle_nulos. now destruct (0 <? valores_nulos r)%nat. Qed.

Lemma filter_indices_detalle (r : Resultado) :
  filter es_indices_nulos (lineas_detalle_nulos r) =
  if (0 <? valores_nulos r)%nat then [LIndicesNulos (indices_nulos r)] else [].
Proof. unfold lineas_detalle_nulos. now destruct (0 <? valores_nulos r)%nat. Qed.

(** When every label takes the width, every row is printed. *)
Lemma lineas_filas_todas (pares : list (Etiqueta * Objeto)) :
  formato_filas pares = Ok tt -> lineas_filas pares = map linea_fila pares.
Proof.
  induction pares as [|[idx val] pares IH]; simpl; [reflexivity|].
  destruct (formato_ancho idx) as [[]|e]; [|discriminate].
  intros H. now rewrite IH.
Qed.

(** The lines of a verbose call that returned [r] for the column
    [serie]. *)
Lemma verificar_columna_lineas st columna serie r :
  getitem (tabla st) columna = Ok serie ->
  fst (verificar_columna_numerica columna true st) = Ok r ->
  snd (verificar_columna_numerica columna true st) =
  mkEstado (tabla st) (consola st ++ lineas_columna columna serie r)
  /\ lineas_filas (combine (indices_no_numericos r) (valores_no_numericos r))
     = map linea_fila (combine (indices_no_numericos r) (valores_no_numericos r))
  /\ formato_filas (combine (indices_no_numericos r) (valores_no_numericos r))
     = Ok tt.
Proof.
  intros Hget Hr. rewrite verificar_columna_traza in *. simpl in *.
  apply informe_de_ok in Hr. destruct Hr as [Hr Hf]. specialize (Hf eq_refl).
  unfold lineas_verificar. rewrite Hget, Hr.
  split; [reflexivity|]. split; [now apply lineas_filas_todas | exact Hf].
Qed.

(** X7. With [verbose=True] a call that returns a report prints one table
    row for each recorded cell and no other: the rows, in order, are the
    recorded (label, value) pairs with the class name of the value, and
    their number is the count of the report. *)
Theorem X7_filas_impresas :
  forall st columna r,
    fst (verificar_columna_numerica columna true st) = Ok r ->
    exists lineas,
      snd (verificar_columna_numerica columna true st)
      = mkEstado (tabla st) (consola st ++ lineas)
      /\ filter es_fila lineas
         = map linea_fila
             (combine (indices_no_numericos r) (valores_no_numericos r))
      /\ List.length (filter es_fila lineas) = cantidad_no_numericos r.
Proof.
  intros st columna r Hr.
  pose proof (verificar_columna_ok _ _ _ _ Hr) as Hinf.
  destruct (informe_ok _ _ _ Hinf) as (serie & Hget & Hcasos).
  destruct (verificar_columna_lineas _ _ _ _ Hget Hr) as (Hs & Hfilas & Hfmt).
  exists (lineas_columna columna serie r).
  split; [exact Hs|].
  assert (Hfil : filter es_fila (lineas_columna columna serie r)
                 = map linea_fila
                     (combine (indices_no_numericos r) (valores_no_numericos r))).
  { unfold lineas_columna, lineas_informar. rewrite Hfilas, Hfmt.
    destruct Hcasos as [[Hnum ->] | (Hnum & Hfuga & ->)]; rewrite Hnum;
      [reflexivity|].
    simpl.
    destruct (filter no_numerico (items serie)) as [|fila resto] eqn:E; simpl.
    - apply filter_fila_detalle.
    - rewrite filter_app, filter_fila_detalle. simpl.
      rewrite filter_app, filter_fila_map. simpl.
      now rewrite app_nil_r. }
  split; [exact Hfil|]. rewrite Hfil, length_map.
  destruct Hcasos as [[Hnum ->] | (Hnum & Hfuga & ->)]; simpl; [reflexivity|].
  rewrite combine_map. now rewrite !length_map.
Qed.

(** X7, instance: column ["e"] shows the one row of its bad cell, with the
    stripped text. *)
Lemma X7_filas_impresas_witness :
  exists lineas,
    snd (verificar_columna_numerica "e" true st_ejemplo)
    = mkEstado (tabla st_ejemplo) (consola st_ejemplo ++ lineas)
    /\ filter es_fila lineas = [LFila (EInt 1) (PyStr "abc") "str"].
Proof.
  destruct (X7_filas_impresas st_ejemplo "e" informe_e eq_refl)
    as (lineas & Hs & Hf & _).
  exists lineas. split; [exact Hs | exact Hf].
Defined.

(** X8. With [verbose=True] the labels of the missing cells are printed,
    once, exactly when the column was scanned and has a missing cell; the
    short cut for a numeric storage type prints the count of missing cells
    but never their labels. *)
Theorem X8_detalle_nulos :
  forall st columna serie r,
    getitem (tabla st) columna = Ok serie ->
    fst (verificar_columna_numerica columna true st) = Ok r ->
    exists lineas,
      snd (verificar_columna_numerica columna true st)
      = mkEstado (tabla st) (consola st ++ lineas)
      /\ In (LValoresNulos (valores_nulos r)) lineas
      /\ filter es_indices_nulos lineas
         = if negb (is_numeric_dtype (dtype serie))
              && (0 <? valores_nulos r)%nat
           then [LIndicesNulos (indices_nulos r)]
           else [].
Proof.
  intros st columna serie r Hget Hr.
  destruct (verificar_columna_lineas _ _ _ _ Hget Hr) as (Hs & Hfilas & Hfmt).
  exists (lineas_columna columna serie r).
  split; [exact Hs|].
  unfold lineas_columna, lineas_informar. rewrite Hfilas, Hfmt.
  destruct (is_numeric_dtype (dtype serie)); simpl; [intuition|].
  destruct (es_numerica r); simpl.
  - split; [intuition|]. apply filter_indices_detalle.
  - split; [intuition|].
    rewrite filter_app, filter_indices_detalle. simpl.
    rewrite filter_app, filter_indices_map. simpl.
    now rewrite app_nil_r.
Qed.

(** X8, instance: the floating column ["c"] has a NaN and its label is not
    printed; column ["b"] has a [None] and its label is. *)
Lemma X8_detalle_nulos_witness :
  (exists lineas,
     snd (verificar_columna_numerica "c" true st_ejemplo)
     = mkEstado (tabla st_ejemplo) (consola st_ejemplo ++ lineas)
     /\ filter es_indices_nulos lineas = [])
  /\ (exists lineas,
        snd (verificar_columna_numerica "b" true st_ejemplo)
        = mkEstado (tabla st_ejemplo) (consola st_ejemplo ++ lineas)
        /\ filter es_indices_nulos lineas = [LIndicesNulos [EInt 2]]).
Proof.
  split.
  - destruct (X8_detalle_nulos st_ejemplo "c" serie_c informe_c eq_refl eq_refl)
      as (lineas & Hs & _ & Hf).
    exists lineas. split; [exact Hs | exact Hf].
  - destruct (X8_detalle_nulos st_ejemplo "b" serie_b informe_b eq_refl eq_refl)
      as (lineas & Hs & _ & Hf).
    exists lineas. split; [exact Hs | exact Hf].
Defined.

(* ================================================================== *)
(** ** Further properties of [verificar_multiples_columnas] *)
(* ================================================================== *)

Lemma informes_raise (verbose : bool) (df : DataFrame) (cols : list string)
    (e : Excepcion) :
  forall d,
    informes verbose df cols d = Raise e ->
    exists pre c post,
      cols = pre ++ c :: post
      /\ (forall x, In x pre -> exists r, informe_de verbose df x = Ok r)
      /\ informe_de verbose df c = Raise e.
Proof.
  induction cols as [|col resto IH]; intros d; simpl; [discriminate|].
  destruct (informe_de verbose df col) as [r|e'] eqn:Hr.
  - intros H. destruct (IH _ H) as (pre & c & post & -> & Hpre & Hc).
    exists (col :: pre), c, post. split; [reflexivity|]. split; [|exact Hc].
    intros x [<- | Hx]; eauto.
  - intros [= ->]. exists [], col, resto. repeat split; [|exact Hr].
    intros x [].
Qed.

(** X9. A batch raises exactly when the call for some requested name
    raises, and what it raises is the exception of the first such name in
    the order of the request: the names before it got their report, the
    names after it are never looked at. *)
Theorem X9_primera_excepcion :
  forall st columnas verbose e,
    fst (verificar_multiples_columnas columnas verbose st) = Raise e
    <-> exists pre c post,
          columnas_pedidas (tabla st) columnas = pre ++ c :: post
          /\ (forall x, In x pre ->
                exists r, fst (verificar_columna_numerica x verbose st) = Ok r)
          /\ fst (verificar_columna_numerica c verbose st) = Raise e.
Proof.
  intros st columnas verbose e. rewrite verificar_multiples_fst. split.
  - intros H. destruct (informes_raise _ _ _ _ _ H) as (pre & c & post & Hp & Hpre & Hc).
    exists pre, c, post. split; [exact Hp|].
    split; [|now rewrite verificar_columna_fst].
    intros x Hx. rewrite verificar_columna_fst. auto.
  - intros (pre & c & post & -> & Hpre & Hc).
    rewrite verificar_columna_fst in Hc.
    apply informes_primera_falla; [|exact Hc].
    intros x Hx. destruct (Hpre x Hx) as [r Hr].
    rewrite verificar_columna_fst in Hr. eauto.
Qed.

Lemma sin_repetir_NoDup_keys (cols : list string) : NoDup (sin_repetir cols).
Proof.
  induction cols as [|c resto IH]; simpl; constructor.
  - rewrite filter_In. intros [_ H]. now rewrite String.eqb_refl in H.
  - now apply NoDup_filter.
Qed.

Lemma sin_repetir_length (cols : list string) :
  List.length (sin_repetir cols) <= List.length cols.
Proof.
  induction cols as [|c resto IH]; simpl; [lia|].
  pose proof (filter_length_le (fun x => negb (String.eqb c x)) (sin_repetir resto)).
  lia.
Qed.

Lemma dict_get_keys (d : Dict) (k : string) :
  (exists v, dict_get d k = Some v) <-> In k (dict_keys d).
Proof.
  unfold dict_keys. induction d as [|[k' v'] resto IH]; simpl.
  - split; [intros [v H]; discriminate | contradiction].
  - destruct (String.eqb k' k) eqn:E.
    + apply String.eqb_eq in E. subst. split; eauto.
    + rewrite IH. split; [tauto|]. intros [-> | H]; [|exact H].
      now rewrite String.eqb_refl in E.
Qed.

(** The dict a batch returns, read off the table. *)
Lemma informes_dict (verbose : bool) (df : DataFrame) (cols : list string)
    (d : Dict) :
  informes verbose df cols [] = Ok d ->
  dict_keys d = sin_repetir cols
  /\ forall c r, dict_get d c = Some r <-> In c cols /\ informe_de verbose df c = Ok r.
Proof.
  intros H. destruct (informes_ok _ _ _ _ _ H) as (Hin & Hout & Hkeys).
  split.
  - rewrite Hkeys. simpl.
    apply forallb_filter_id. apply forallb_forall. reflexivity.
  - intros c r. split.
    + intros Hg. destruct (in_dec string_dec c cols) as [Hc | Hc].
      * destruct (Hin c Hc) as (r' & Hr' & Hg'). split; [exact Hc | congruence].
      * rewrite (Hout c Hc) in Hg. discriminate.
    + intros [Hc Hr]. destruct (Hin c Hc) as (r' & Hr' & Hg'). congruence.
Qed.

(** X10. The dict a batch returns has one key for each requested name and
    no other, each once, in the order in which the names were first
    requested; every key is a column of the table, and under a key lies
    exactly the report of the single call for that name. When no name is
    requested twice the keys are the request itself. *)
Theorem X10_dict_del_lote :
  forall st columnas verbose d,
    fst (verificar_multiples_columnas columnas verbose st) = Ok d ->
    dict_keys d = sin_repetir (columnas_pedidas (tabla st) columnas)
    /\ NoDup (dict_keys d)
    /\ (forall c, In c (dict_keys d)
                  <-> In c (columnas_pedidas (tabla st) columnas))
    /\ (forall c, In c (dict_keys d) -> In c (columns (tabla st)))
    /\ (forall c r,
          dict_get d c = Some r
          <-> In c (columnas_pedidas (tabla st) columnas)
              /\ fst (verificar_columna_numerica c verbose st) = Ok r)
    /\ List.length d <= List.length (columnas_pedidas (tabla st) columnas)
    /\ (NoDup (columnas_pedidas (tabla st) columnas) ->
        dict_keys d = columnas_pedidas (tabla st) columnas).
Proof.
  intros st columnas verbose d H. rewrite verificar_multiples_fst in H.
  destruct (informes_dict _ _ _ _ H) as [Hkeys Hget].
  split; [exact Hkeys|]. rewrite Hkeys.
  split; [apply sin_repetir_NoDup_keys|].
  split; [intros c; apply sin_repetir_In|].
  split.
  - intros c Hc. apply (proj1 (sin_repetir_In _ _)) in Hc.
    destruct (informes_ok _ _ _ _ _ H) as (Hin & _).
    destruct (Hin c Hc) as (r & Hr & _).
    apply informe_de_ok in Hr. destruct Hr as [Hr _].
    destruct (informe_ok _ _ _ Hr) as (serie & Hs & _).
    apply contiene_In. now apply (getitem_ok _ _ _ Hs).
  - split; [intros c r; rewrite verificar_columna_fst; apply Hget|].
    split; [|apply sin_repetir_NoDup].
    unfold dict_keys in Hkeys.
    rewrite <- (length_map fst d), Hkeys. apply sin_repetir_length.
Qed.

(** X10, instance: the request [["b", "c", "b"]] on the example table. *)
Lemma X10_dict_del_lote_witness :
  dict_keys [("b", informe_b); ("c", informe_c)] = ["b"; "c"]
  /\ NoDup (dict_keys [("b", informe_b); ("c", informe_c)]).
Proof.
  destruct (X10_dict_del_lote st_ejemplo (Some ["b"; "c"; "b"]) true
              [("b", informe_b); ("c", informe_c)] eq_refl)
    as (Hk & Hn & _).
  split; [exact Hk | exact Hn].
Defined.

Lemma dict_set_mismo (d : Dict) (k : string) (v : Resultado) :
  dict_get d k = Some v -> dict_set d k v = d.
Proof.
  induction d as [|[k' v'] resto IH]; simpl; [discriminate|].
  destruct (String.eqb k' k).
  - now intros [= ->].
  - intros H. now rewrite IH.
Qed.

Lemma informes_sin (verbose : bool) (df : DataFrame) (c : string)
    (r : Resultado)
    (cols : list string) :
  informe_de verbose df c = Ok r ->
  forall d, dict_get d c = Some r ->
    informes verbose df (filter (fun x => negb (String.eqb c x)) cols) d
    = informes verbose df cols d.
Proof.
  intros Hr. induction cols as [|x resto IH]; intros d Hd; simpl; [reflexivity|].
  destruct (String.eqb c x) eqn:E; simpl.
  - apply String.eqb_eq in E. subst x.
    rewrite Hr, (dict_set_mismo _ _ _ Hd). now apply IH.
  - destruct (informe_de verbose df x) as [rx|e]; [|reflexivity].
    apply IH. rewrite dict_get_set_neq; [exact Hd|].
    intros ->. now rewrite String.eqb_refl in E.
Qed.

Lemma informes_sin_repetir (verbose : bool) (df : DataFrame)
    (cols : list string) :
  forall d, informes verbose df (sin_repetir cols) d = informes verbose df cols d.
Proof.
  induction cols as [|c resto IH]; intros d; simpl; [reflexivity|].
  destruct (informe_de verbose df c) as [r|e] eqn:Hr; [|reflexivity].
  rewrite (informes_sin _ _ _ _ _ Hr); [apply IH | apply dict_get_set_eq].
Qed.

(** X11. Requesting a name more than once changes nothing in the outcome:
    the batch returns the same dict, or raises the same exception, as for
    the request with every repetition after the first removed. *)
Theorem X11_repetidas :
  forall st cols verbose,
    fst (verificar_multiples_columnas (Some cols) verbose st)
    = fst (verificar_multiples_columnas (Some (sin_repetir cols)) verbose st).
Proof.
  intros st cols verbose. rewrite !verificar_multiples_fst. simpl.
  symmetry. apply informes_sin_repetir.
Qed.

(* ------------------------------------------------------------------ *)
(** *** What a verbose batch shows *)

Lemma filter_map_nada {A} (p : Linea -> bool) (f : A -> Linea) (l : list A) :
  (forall x, p (f x) = false) -> filter p (map f l) = [].
Proof.
  intros H. induction l as [|x l IH]; simpl; [reflexivity|].
  now rewrite H.
Qed.

Lemma filter_map_todo {A} (p : Linea -> bool) (f : A -> Linea) (l : list A) :
  (forall x, p (f x) = true) -> filter p (map f l) = map f l.
Proof.
  intros H. induction l as [|x l IH]; simpl; [reflexivity|].
  now rewrite H, IH.
Qed.

Lemma filter_ninguno {A} (p q : A -> bool) (l : list A) :
  (forall x, p x = true -> q x = true) ->
  Forall (fun x => q x = false) l -> filter p l = [].
Proof.
  intros Hpq H. apply filter_nil_Forall.
  rewrite Forall_forall in *. intros x Hx. specialize (H x Hx).
  destruct (p x) eqn:E; [|reflexivity]. rewrite (Hpq x E) in H. discriminate.
Qed.

Lemma lineas_filas_no_lote (pares : list (Etiqueta * Objeto)) :
  Forall (fun l => es_de_lote l = false) (lineas_filas pares).
Proof.
  induction pares as [|[idx val] pares IH]; simpl; [constructor|].
  destruct (formato_ancho idx); [now constructor | constructor].
Qed.

(** A single call prints none of the lines of the batch. *)
Lemma lineas_verificar_no_lote (df : DataFrame) (columna : string) :
  Forall (fun l => es_de_lote l = false) (lineas_verificar df columna).
Proof.
  unfold lineas_verificar.
  destruct (getitem df columna) as [serie|]; [|constructor].
  destruct (informe df columna) as [r|]; [|constructor].
  unfold lineas_columna, lineas_informar, lineas_detalle_nulos.
  destruct (is_numeric_dtype (dtype serie)); [repeat constructor|].
  pose proof (lineas_filas_no_lote
                (combine (indices_no_numericos r) (valores_no_numericos r))) as Hf.
  destruct (es_numerica r), (0 <? valores_nulos r)%nat,
           (formato_filas (combine (indices_no_numericos r)
                             (valores_no_numericos r)));
    simpl;
    repeat (constructor; [reflexivity|]); try constructor;
    apply Forall_app; split; try exact Hf; repeat constructor.
Qed.

Section Filtros.

Variable p : Linea -> bool.
Hypothesis p_de_lote : forall l, p l = true -> es_de_lote l = true.

Lemma filter_verificar (df : DataFrame) (columna : string) :
  filter p (lineas_verificar df columna) = [].
Proof.
  eapply filter_ninguno; [exact p_de_lote | apply lineas_verificar_no_lote].
Qed.

Lemma filter_bucle_ok (df : DataFrame) (cols : list string) :
  (forall c, In c cols -> exists r, informe_de true df c = Ok r) ->
  filter p (lineas_bucle df cols) = filter p (map LColumna cols).
Proof.
  induction cols as [|c resto IH]; intros H; [reflexivity|].
  cbn [lineas_bucle map filter].
  destruct (H c (or_introl eq_refl)) as [r ->].
  rewrite filter_app, filter_verificar. simpl.
  rewrite IH; [reflexivity|]. intros x Hx. apply H. now right.
Qed.

Lemma filter_bucle_raise (df : DataFrame) (pre post : list string)
    (c : string) (e : Excepcion) :
  (forall x, In x pre -> exists r, informe_de true df x = Ok r) ->
  informe_de true df c = Raise e ->
  filter p (lineas_bucle df (pre ++ c :: post))
  = filter p (map LColumna (pre ++ [c])).
Proof.
  induction pre as [|x pre IH]; intros H Hc.
  - cbn [app lineas_bucle map filter]. rewrite Hc.
    now rewrite filter_app, filter_verificar.
  - cbn [app lineas_bucle map filter].
    destruct (H x (or_introl eq_refl)) as [r ->].
    rewrite filter_app, filter_verificar. simpl.
    rewrite IH; [reflexivity | | exact Hc]. intros y Hy. apply H. now right.
Qed.

End Filtros.

Lemma es_resumen_de_lote (l : Linea) : es_resumen l = true -> es_de_lote l = true.
Proof. now destruct l. Qed.

Lemma es_columna_de_lote (l : Linea) : es_columna l = true -> es_de_lote l = true.
Proof. now destruct l. Qed.

Lemma es_item_de_lote (l : Linea) : es_item l = true -> es_de_lote l = true.
Proof. now destruct l. Qed.

Lemma es_problematico_de_lote (l : Linea) :
  es_problematico l = true -> es_de_lote l = true.
Proof. now destruct l. Qed.

Lemma es_cuenta_de_lote (l : Linea) : es_cuenta l = true -> es_de_lote l = true.
Proof. now destruct l. Qed.

Lemma filter_resumen_resumen (d : Dict) :
  filter es_resumen (lineas_resumen d) = [LResumen]
  /\ filter es_columna (lineas_resumen d) = [].
Proof.
  unfold lineas_resumen.
  destruct (map fst (no_numericas d)) as [|c resto]; simpl;
    rewrite !filter_app; simpl;
    rewrite ?(filter_map_nada es_resumen LItem),
            ?(filter_map_nada es_columna LItem),
            ?(filter_map_nada es_resumen (linea_problematica d)),
            ?(filter_map_nada es_columna (linea_problematica d));
    auto.
Qed.

(** X12. What a batch with [verbose=True] shows of its progress. When it
    returns, it has printed one heading per requested name, in order, and
    the summary once. When it raises, it has printed the headings of the
    names up to and including the one whose call raised, and no summary:
    what was printed for the earlier columns stays on the console. *)
Theorem X12_salida_del_lote :
  forall st columnas,
    exists lineas,
      snd (verificar_multiples_columnas columnas true st)
      = mkEstado (tabla st) (consola st ++ lineas)
      /\ (forall d,
            fst (verificar_multiples_columnas columnas true st) = Ok d ->
            filter es_resumen lineas = [LResumen]
            /\ filter es_columna lineas
               = map LColumna (columnas_pedidas (tabla st) columnas))
      /\ (forall e,
            fst (verificar_multiples_columnas columnas true st) = Raise e ->
            filter es_resumen lineas = []
            /\ exists pre c post,
                 columnas_pedidas (tabla st) columnas = pre ++ c :: post
                 /\ fst (verificar_columna_numerica c true st) = Raise e
                 /\ filter es_columna lineas = map LColumna (pre ++ [c])).
Proof.
  intros st columnas. exists (lineas_multiples (tabla st) columnas).
  rewrite verificar_multiples_traza. simpl.
  split; [reflexivity|]. unfold lineas_multiples.
  set (cols := columnas_pedidas (tabla st) columnas).
  split.
  - intros d Hd. rewrite Hd.
    destruct (informes_ok _ _ _ _ _ Hd) as (Hin & _).
    assert (Hok : forall c, In c cols ->
                    exists r, informe_de true (tabla st) c = Ok r).
    { intros c Hc. destruct (Hin c Hc) as (r & Hr & _). eauto. }
    destruct (filter_resumen_resumen d) as [Hr1 Hr2].
    simpl. rewrite !filter_app, Hr1, Hr2.
    rewrite (filter_bucle_ok _ es_resumen_de_lote _ _ Hok).
    rewrite (filter_bucle_ok _ es_columna_de_lote _ _ Hok).
    rewrite (filter_map_nada es_resumen LColumna) by reflexivity.
    rewrite (filter_map_todo es_columna LColumna) by reflexivity.
    now rewrite app_nil_r.
  - intros e He. rewrite He.
    destruct (informes_raise _ _ _ _ _ He) as (pre & c & post & Hp & Hpre & Hc).
    simpl. rewrite !filter_app, !app_nil_r. rewrite Hp.
    rewrite (filter_bucle_raise _ es_resumen_de_lote _ _ _ _ _ Hpre Hc).
    rewrite (filter_bucle_raise _ es_columna_de_lote _ _ _ _ _ Hpre Hc).
    rewrite (filter_map_nada es_resumen LColumna) by reflexivity.
    rewrite (filter_map_todo es_columna LColumna) by reflexivity.
    split; [reflexivity|].
    exists pre, c, post. split; [reflexivity|].
    split; [now rewrite verificar_columna_fst | reflexivity].
Qed.

Lemma informe_cuenta (verbose : bool) (df : DataFrame) (columna : string)
    (r : Resultado) :
  informe_de verbose df columna = Ok r ->
  es_numerica r = (cantidad_no_numericos r =? 0)%nat.
Proof.
  intros H. apply informe_de_ok in H. destruct H as [H _].
  destruct (informe_ok _ _ _ H) as (serie & _ & Hcasos).
  destruct Hcasos as [[_ ->] | (_ & _ & ->)]; reflexivity.
Qed.

Lemma dict_get_NoDup (d : Dict) (k : string) (v : Resultado) :
  NoDup (dict_keys d) -> In (k, v) d -> dict_get d k = Some v.
Proof.
  unfold dict_keys. induction d as [|[k' v'] resto IH]; simpl; [contradiction|].
  intros Hnd Hin. inversion Hnd as [|? ? Hk Hnd']; subst.
  destruct Hin as [[= -> ->] | Hin].
  - now rewrite String.eqb_refl.
  - destruct (String.eqb k' k) eqn:E; [|now apply IH].
    apply String.eqb_eq in E. subst k'.
    exfalso. apply Hk. apply in_map_iff. now exists (k, v).
Qed.

Lemma particion_dos {A} (p : A -> bool) (l : list A) :
  List.length (filter p l) + List.length (filter (fun x => negb (p x)) l)
  = List.length l.
Proof.
  induction l as [|x l IH]; simpl; [reflexivity|].
  destruct (p x); simpl; lia.
Qed.

(** X13. The summary of a batch that returns: every key of the dict is
    listed once, among the numeric columns when its report says so and
    among the others with the count of its report when not; the two groups
    together are all the keys; the count shown for a column that is not
    numeric is never zero; the heading of the numeric group is printed even
    when the group is empty, that of the other group only when it is
    not. *)
Theorem X13_resumen_del_lote :
  forall st columnas d,
    fst (verificar_multiples_columnas columnas true st) = Ok d ->
    exists lineas,
      snd (verificar_multiples_columnas columnas true st)
      = mkEstado (tabla st) (consola st ++ lineas)
      /\ filter es_item lineas = map LItem (map fst (numericas d))
      /\ filter es_problematico lineas = map linea_de_entrada (no_numericas d)
      /\ filter es_cuenta lineas
         = LNumericas (List.length (numericas d)) ::
           match no_numericas d with
           | [] => []
           | _ => [LNoNumericas (List.length (no_numericas d))]
           end
      /\ List.length (numericas d) + List.length (no_numericas d) = List.length d
      /\ Forall (fun cr => 0 < cantidad_no_numericos (snd cr)) (no_numericas d)
      /\ Forall (fun cr => cantidad_no_numericos (snd cr) = 0) (numericas d).
Proof.
  intros st columnas d Hd.
  exists (lineas_multiples (tabla st) columnas).
  rewrite verificar_multiples_traza in *. simpl in *.
  split; [reflexivity|]. unfold lineas_multiples. rewrite Hd.
  set (cols := columnas_pedidas (tabla st) columnas) in *.
  destruct (informes_ok _ _ _ _ _ Hd) as (Hin & _).
  assert (Hok : forall c, In c cols ->
                    exists r, informe_de true (tabla st) c = Ok r).
  { intros c Hc. destruct (Hin c Hc) as (r & Hr & _). eauto. }
  destruct (informes_dict _ _ _ _ Hd) as [Hkeys Hget].
  assert (Hnd : NoDup (dict_keys d))
    by (rewrite Hkeys; apply sin_repetir_NoDup_keys).
  assert (Hinv : forall c r, In (c, r) d ->
                   es_numerica r = (cantidad_no_numericos r =? 0)%nat).
  { intros c r Hcr. apply (informe_cuenta true (tabla st) c).
    apply Hget. now apply dict_get_NoDup. }
  assert (Hprob : map (linea_problematica d) (map fst (no_numericas d))
                  = map linea_de_entrada (no_numericas d)).
  { rewrite map_map. apply map_ext_in. intros [c r] Hcr.
    apply filter_In in Hcr. destruct Hcr as [Hcr _].
    unfold linea_problematica, linea_de_entrada. simpl.
    now rewrite (dict_get_NoDup _ _ _ Hnd Hcr). }
  simpl. rewrite !filter_app.
  rewrite (filter_bucle_ok _ es_item_de_lote _ _ Hok).
  rewrite (filter_bucle_ok _ es_problematico_de_lote _ _ Hok).
  rewrite (filter_bucle_ok _ es_cuenta_de_lote _ _ Hok).
  rewrite !(filter_map_nada _ LColumna) by reflexivity.
  unfold lineas_resumen. rewrite <- Hprob. simpl.
  rewrite !filter_app.
  rewrite (filter_map_todo es_item LItem) by reflexivity.
  rewrite (filter_map_nada es_problematico LItem) by reflexivity.
  rewrite (filter_map_nada es_cuenta LItem) by reflexivity.
  split; [|split; [|split]].
  - destruct (map fst (no_numericas d)); simpl;
      rewrite ?(filter_map_nada es_item (linea_problematica d)) by reflexivity;
      now rewrite app_nil_r.
  - destruct (map fst (no_numericas d)) as [|c resto] eqn:E; simpl;
      [reflexivity|].
    now rewrite (filter_map_todo es_problematico (linea_problematica d))
      by reflexivity.
  - f_equal. destruct (no_numericas d) as [|cr resto] eqn:E; simpl;
      [reflexivity|].
    rewrite (filter_map_nada es_cuenta (linea_problematica d)) by reflexivity.
    now rewrite length_map.
  - split; [apply particion_dos|].
    split; apply Forall_forall; intros [c r] Hcr;
      apply filter_In in Hcr; destruct Hcr as [Hcr Hes]; simpl in *;
      rewrite (Hinv c r Hcr) in Hes.
    + destruct (cantidad_no_numericos r); [discriminate | lia].
    + now apply Nat.eqb_eq.
Qed.

(** X13, instance: the request [["b", "c"]] on the example table. *)
Lemma X13_resumen_del_lote_witness :
  exists lineas,
    snd (verificar_multiples_columnas (Some ["b"; "c"]) true st_ejemplo)
    = mkEstado (tabla st_ejemplo) (consola st_ejemplo ++ lineas)
    /\ filter es_item lineas = [LItem "c"]
    /\ filter es_problematico lineas = [LItemProblematico "b" 1].
Proof.
  destruct (X13_resumen_del_lote st_ejemplo (Some ["b"; "c"])
              [("b", informe_b); ("c", informe_c)] eq_refl)
    as (lineas & Hs & Hi & Hp & _).
  exists lineas. split; [exact Hs|]. split; [exact Hi | exact Hp].
Defined.


(* ------------------------------------------------------------------ *)
(** *** One column at a time *)

(** X14. The outcome for a column depends on that column and on [verbose]
    alone: two tables that hold the same column under a name give, for
    that name and the same [verbose], the same report or the same
    exception, whatever their other columns. *)
Theorem X14_solo_la_columna :
  forall st1 st2 columna verbose serie,
    getitem (tabla st1) columna = Ok serie ->
    getitem (tabla st2) columna = Ok serie ->
    fst (verificar_columna_numerica columna verbose st1)
    = fst (verificar_columna_numerica columna verbose st2).
Proof.
  intros st1 st2 columna verbose serie H1 H2.
  rewrite !verificar_columna_fst. unfold informe_de.
  now rewrite (informe_presente _ _ _ H1), (informe_presente _ _ _ H2).
Qed.

(** X14, instance: column ["b"] in the example table and in the table
    whose other column holds [2**1024]. *)
Lemma X14_solo_la_columna_witness :
  fst (verificar_columna_numerica "b" true st_ejemplo)
  = fst (verificar_columna_numerica "b" true st_grande).
Proof.
  exact (X14_solo_la_columna st_ejemplo st_grande "b" true serie_b
           eq_refl eq_refl).
Defined.

Lemma etiquetas_distintas_filter (p : Etiqueta * Objeto -> bool) :
  forall filas : list (Etiqueta * Objeto),
    NoDup (map fst filas) -> NoDup (map fst (filter p filas)).
Proof.
  intros filas. induction filas as [|fila resto IH]; simpl; intros Hnd.
  - constructor.
  - apply NoDup_cons_iff in Hnd. destruct Hnd as [Hfuera Hresto].
    destruct (p fila); simpl; [|now apply IH].
    apply NoDup_cons; [|now apply IH].
    intros Hdentro. apply Hfuera.
    apply in_map_iff in Hdentro. destruct Hdentro as (otra & Heq & Hotra).
    apply filter_In in Hotra. rewrite <- Heq. apply in_map. tauto.
Qed.

Lemma NoDup_map_fst_unico {A B} (l : list (A * B)) (a : A) (b1 b2 : B) :
  NoDup (map fst l) -> In (a, b1) l -> In (a, b2) l -> b1 = b2.
Proof.
  induction l as [|[a' b'] l IH]; simpl; intros Hnd H1 H2; [contradiction|].
  inversion Hnd as [|? ? Ha Hl]; subst.
  destruct H1 as [E1 | H1], H2 as [E2 | H2].
  - congruence.
  - injection E1 as -> ->.
    exfalso. apply Ha. apply in_map_iff. now exists (a, b2).
  - injection E2 as -> ->.
    exfalso. apply Ha. apply in_map_iff. now exists (a, b1).
  - now apply IH.
Qed.

(** X15. Every label of a report is a label of the column. When the labels
    of the column are pairwise distinct, as in a [RangeIndex], no label is
    listed twice, and no label is both among the missing cells and among
    the recorded ones. *)
Theorem X15_etiquetas_del_informe :
  forall st columna verbose serie r,
    getitem (tabla st) columna = Ok serie ->
    fst (verificar_columna_numerica columna verbose st) = Ok r ->
    incl (indices_no_numericos r) (map fst (items serie))
    /\ incl (indices_nulos r) (map fst (items serie))
    /\ (NoDup (map fst (items serie)) ->
        NoDup (indices_no_numericos r)
        /\ NoDup (indices_nulos r)
        /\ forall idx, In idx (indices_no_numericos r) ->
             ~ In idx (indices_nulos r)).
Proof.
  intros st columna verbose serie r Hget Hr.
  apply verificar_columna_ok in Hr.
  destruct (informe_ok _ _ _ Hr) as (serie' & Hget' & Hcasos).
  assert (serie' = serie) by congruence. subst serie'.
  assert (Hincl : forall p : Etiqueta * Objeto -> bool,
            incl (map fst (filter p (items serie))) (map fst (items serie))).
  { intros p idx Hin. apply in_map_iff in Hin.
    destruct Hin as (fila & <- & Hin). apply filter_In in Hin.
    apply in_map. tauto. }
  destruct Hcasos as [[Hnum ->] | (Hnum & Hfuga & ->)]; simpl.
  - split; [intros idx []|]. split; [apply Hincl|].
    intros Hnd. split; [constructor|].
    split; [now apply etiquetas_distintas_filter | intros idx []].
  - split; [apply Hincl|]. split; [apply Hincl|].
    intros Hnd. split; [now apply etiquetas_distintas_filter|].
    split; [now apply etiquetas_distintas_filter|].
    intros idx H1 H2.
    apply in_map_iff in H1. destruct H1 as ([i1 v1] & <- & H1).
    apply in_map_iff in H2. destruct H2 as ([i2 v2] & Heq & H2).
    simpl in Heq. subst i2.
    apply filter_In in H1. destruct H1 as [H1 Hp].
    apply filter_In in H2. destruct H2 as [H2 Hq].
    assert (v1 = v2) by (eapply NoDup_map_fst_unico; eauto). subst v2.
    apply no_numerico_no_nulo in Hp. simpl in *. congruence.
Qed.

(** X15, instance: column ["b"] of the example table. *)
Lemma X15_etiquetas_del_informe_witness :
  NoDup (indices_no_numericos informe_b)
  /\ NoDup (indices_nulos informe_b)
  /\ forall idx, In idx (indices_no_numericos informe_b) ->
       ~ In idx (indices_nulos informe_b).
Proof.
  refine (proj2 (proj2 (X15_etiquetas_del_informe st_ejemplo "b" true serie_b
                          informe_b eq_refl eq_refl)) _).
  simpl. repeat (constructor; [simpl; intuition discriminate|]). constructor.
Defined.

(* ------------------------------------------------------------------ *)
(** *** When [verbose] changes nothing, and the error of line 28 *)

Lemma informe_indices_incl df columna serie r :
  getitem df columna = Ok serie ->
  informe df columna = Ok r ->
  incl (indices_no_numericos r) (map fst (items serie)).
Proof.
  intros Hget Hr.
  destruct (informe_ok _ _ _ Hr) as (serie' & Hget' & Hcasos).
  assert (serie' = serie) by congruence. subst serie'.
  destruct Hcasos as [[_ ->] | (_ & _ & ->)]; simpl; [intros idx []|].
  intros idx Hin. apply in_map_iff in Hin.
  destruct Hin as (fila & <- & Hin). apply filter_In in Hin.
  apply in_map. tauto.
Qed.

Lemma informe_de_llano df columna :
  (forall serie, getitem df columna = Ok serie ->
     Forall (fun fila => con_ancho (fst fila) = true) (items serie)) ->
  informe_de true df columna = informe_de false df columna.
Proof.
  intros H. unfold informe_de.
  destruct (informe df columna) as [r|e] eqn:Hr; [|reflexivity].
  destruct (informe_ok _ _ _ Hr) as (serie & Hget & _).
  rewrite formato_filas_con_ancho; [reflexivity|].
  apply Forall_forall. intros [idx val] Hin. simpl.
  apply in_combine_l in Hin.
  apply (informe_indices_incl _ _ _ _ Hget Hr) in Hin.
  apply in_map_iff in Hin. destruct Hin as (fila & <- & Hin).
  specialize (H _ Hget). rewrite Forall_forall in H. now apply H.
Qed.

Lemma informes_llano df :
  (forall c serie, getitem df c = Ok serie ->
     Forall (fun fila => con_ancho (fst fila) = true) (items serie)) ->
  forall cols d, informes true df cols d = informes false df cols d.
Proof.
  intros H. induction cols as [|c resto IH]; intros d; simpl; [reflexivity|].
  rewrite (informe_de_llano df c (H c)).
  destruct (informe_de false df c); [apply IH | reflexivity].
Qed.

(** X16. Over a table whose row labels are integers or texts, [verbose]
    changes nothing in the outcome: each function returns the same report
    or dict, or raises the same exception, with [verbose] on and off. *)
Theorem X16_verbose_con_etiquetas_llanas :
  forall st,
    (forall c serie, getitem (tabla st) c = Ok serie ->
       Forall (fun fila => con_ancho (fst fila) = true) (items serie)) ->
    forall columna columnas,
      fst (verificar_columna_numerica columna true st)
      = fst (verificar_columna_numerica columna false st)
      /\ fst (verificar_multiples_columnas columnas true st)
         = fst (verificar_multiples_columnas columnas false st).
Proof.
  intros st H columna columnas.
  rewrite !verificar_columna_fst, !verificar_multiples_fst. split.
  - apply informe_de_llano, H.
  - now apply informes_llano.
Qed.

(** X16, instance: the example table, whose labels are 0..3. *)
Lemma X16_verbose_con_etiquetas_llanas_witness :
  fst (verificar_columna_numerica "b" true st_ejemplo)
  = fst (verificar_columna_numerica "b" false st_ejemplo)
  /\ fst (verificar_multiples_columnas None true st_ejemplo)
     = fst (verificar_multiples_columnas None false st_ejemplo).
Proof.
  apply (X16_verbose_con_etiquetas_llanas st_ejemplo).
  intros c serie Hget. apply getitem_ok in Hget. destruct Hget as [Hin _].
  simpl in Hin.
  destruct Hin as [E | [E | [E | [E | []]]]]; injection E as _ <-;
    repeat constructor.
Defined.

Lemma getitem_raise_clase df columna e :
  getitem df columna = Raise e -> e = KeyError columna \/ e = AttributeError.
Proof.
  induction df as [|[n s] resto IH]; simpl.
  - intros [= <-]. now left.
  - destruct (String.eqb n columna); [|exact IH].
    destruct (contiene columna (columns resto)); [|discriminate].
    intros [= <-]. now right.
Qed.

Lemma escapa_some_clase fila e :
  escapa fila = Some e -> e = ValueError VerdadAmbigua \/ valor_o_tipo e = false.
Proof.
  unfold escapa.
  destruct (pd_isnull (snd fila)) as [[|]|e'] eqn:Hn.
  - discriminate.
  - destruct (float (limpiar (snd fila))) as [[]|e'']; [discriminate|].
    destruct (valor_o_tipo e'') eqn:Hc; [discriminate|].
    intros [= <-]. now right.
  - intros [= <-]. left.
    destruct (snd fila); simpl in Hn; try discriminate. congruence.
Qed.

Lemma formato_filas_raise pares e :
  formato_filas pares = Raise e -> e = TypeError.
Proof.
  induction pares as [|[idx val] pares IH]; simpl; [discriminate|].
  destruct idx; simpl; try exact IH; now intros [= <-].
Qed.

(** X17. The error of line 28 is raised exactly when the name is not among
    the columns of the table: then the call, with [verbose] on or off,
    raises the [ValueError] whose message names the requested column and
    lists the columns of the table in table order, and prints nothing; and
    no call for a name the table has raises an error with that message. *)
Theorem X17_columna_inexistente :
  forall st columna verbose,
    (~ In columna (columns (tabla st)) ->
     verificar_columna_numerica columna verbose st
     = (Raise (ValueError (ColumnaNoExiste columna (columns (tabla st)))), st))
    /\ (forall c cols,
          fst (verificar_columna_numerica columna verbose st)
          = Raise (ValueError (ColumnaNoExiste c cols)) ->
          ~ In columna (columns (tabla st))
          /\ c = columna /\ cols = columns (tabla st)).
Proof.
  intros st columna verbose. rewrite verificar_columna_traza. split.
  - intros Hno. apply contiene_false in Hno.
    rewrite (informe_de_raise _ _ _ _ (informe_ausente _ _ Hno)).
    unfold lineas_verificar. rewrite (informe_ausente _ _ Hno).
    destruct verbose; [destruct (getitem (tabla st) columna)|];
      now rewrite estado_sin_lineas.
  - intros c cols. simpl. unfold informe_de, informe.
    destruct (contiene columna (columns (tabla st))) eqn:Hc.
    + intros H. exfalso.
      destruct (getitem (tabla st) columna) as [serie|e] eqn:Hget.
      * destruct (is_numeric_dtype (dtype serie)).
        -- destruct verbose; simpl in H; discriminate.
        -- unfold escaneo in H.
           destruct (primera_fuga (items serie)) as [e|] eqn:Hf.
           ++ injection H as ->.
              destruct (primera_fuga_some _ _ Hf) as (fila & _ & He).
              destruct (escapa_some_clase _ _ He); discriminate.
           ++ destruct verbose; [|discriminate].
              destruct (formato_filas _) as [[]|e] eqn:Hfmt; [discriminate|].
              apply formato_filas_raise in Hfmt. congruence.
      * destruct (getitem_raise_clase _ _ _ Hget); congruence.
    + intros [= <- <-]. split; [now apply contiene_false | auto].
Qed.

(** X17, instance: the name ["falta"] over the example table. *)
Lemma X17_columna_inexistente_witness :
  verificar_columna_numerica "falta" true st_ejemplo
  = (Raise (ValueError (ColumnaNoExiste "falta" (columns df_ejemplo))),
     st_ejemplo).
Proof.
  apply (proj1 (X17_columna_inexistente st_ejemplo "falta" true)).
  simpl. intuition discriminate.
Defined.

Lemma formato_filas_casos (pares : list (Etiqueta * Objeto)) :
  formato_filas pares = Ok tt
  \/ (formato_filas pares = Raise TypeError
      /\ exists par, In par pares /\ con_ancho (fst par) = false).
Proof.
  induction pares as [|[idx val] pares IH]; simpl; [now left|].
  destruct idx; simpl;
    try (destruct IH as [IH | (IH & par & Hin & Hpar)];
         [now left | right; split; [exact IH | exists par; auto]]);
    right; (split; [reflexivity|]); eexists; (split; [now left | reflexivity]).
Qed.

Lemma informes_con_verbose df :
  forall cols d d',
    informes true df cols d = Ok d' -> informes false df cols d = Ok d'.
Proof.
  induction cols as [|c resto IH]; intros d d'; simpl; [auto|].
  destruct (informe_de true df c) as [r|e] eqn:Hr; [|discriminate].
  apply informe_de_ok in Hr. destruct Hr as [Hr _].
  rewrite informe_de_silencio, Hr. apply IH.
Qed.

(** X18. What [verbose] can change. For one column, the two calls have the
    same outcome, or else the silent call returns a report and the verbose
    call raises [TypeError], and then a recorded label does not take the
    width of line 127. For the batch, a dict returned by the verbose call
    is the dict the silent call returns. So a value returned never depends
    on [verbose]. *)
Theorem X18_lo_que_cambia_verbose :
  forall st columna,
    (fst (verificar_columna_numerica columna true st)
     = fst (verificar_columna_numerica columna false st)
     \/ exists r idx,
          fst (verificar_columna_numerica columna false st) = Ok r
          /\ fst (verificar_columna_numerica columna true st) = Raise TypeError
          /\ In idx (indices_no_numericos r)
          /\ con_ancho idx = false)
    /\ (forall columnas d,
          fst (verificar_multiples_columnas columnas true st) = Ok d ->
          fst (verificar_multiples_columnas columnas false st) = Ok d).
Proof.
  intros st columna. split.
  - rewrite !verificar_columna_fst, informe_de_silencio. unfold informe_de.
    destruct (informe (tabla st) columna) as [r|e] eqn:Hr; [|now left].
    destruct (formato_filas_casos
                (combine (indices_no_numericos r) (valores_no_numericos r)))
      as [-> | (-> & [idx val] & Hin & Hidx)]; [now left|].
    right. exists r, idx. apply in_combine_l in Hin. auto.
  - intros columnas d. rewrite !verificar_multiples_fst.
    apply informes_con_verbose.
Qed.

(** X18, instance: the batch for ["b"; "c"] over the example table. *)
Lemma X18_lo_que_cambia_verbose_witness :
  fst (verificar_multiples_columnas (Some ["b"; "c"]) false st_ejemplo)
  = Ok [("b", informe_b); ("c", informe_c)].
Proof.
  apply (proj2 (X18_lo_que_cambia_verbose st_ejemplo "b") (Some ["b"; "c"])).
  vm_compute. reflexivity.
Defined.
